(** * Vault: a shallow embedding of [src/lib/Vault.py]

    The class [Vault] keeps the decrypted vault, the master key and the
    configuration in attributes of [self], talks to the user through
    [input]/[getpass]/[print] and persists through [saveVault].  The
    embedding threads one [World] value (the attributes of [self], the file
    on disk, what the user and the environment are going to answer, and
    what has been printed so far) through functions that carry the names of
    the methods they embed. *)

From Stdlib Require Import String Ascii List ZArith NArith Lia Bool Sorted.
From Stdlib Require Import DecimalString.
Import ListNotations.
Open Scope string_scope.
Open Scope list_scope.

Set Default Proof Using "Type".

(** ** Python values used by the class *)

Module Py.

(** *** Strings.  A [str] is modelled as a sequence of 8-bit characters;
    the case conversions act on the ASCII letters as [str.upper] and
    [str.lower] do. *)

Definition is_lower_letter (c : ascii) : bool :=
  let n := nat_of_ascii c in (97 <=? n)%nat && (n <=? 122)%nat.

Definition is_upper_letter (c : ascii) : bool :=
  let n := nat_of_ascii c in (65 <=? n)%nat && (n <=? 90)%nat.

Definition upper_char (c : ascii) : ascii :=
  if is_lower_letter c then ascii_of_nat (nat_of_ascii c - 32) else c.

Definition lower_char (c : ascii) : ascii :=
  if is_upper_letter c then ascii_of_nat (nat_of_ascii c + 32) else c.

Fixpoint upper (s : string) : string :=
  match s with
  | EmptyString => EmptyString
  | String c t => String (upper_char c) (upper t)
  end.

Fixpoint lower (s : string) : string :=
  match s with
  | EmptyString => EmptyString
  | String c t => String (lower_char c) (lower t)
  end.

(** [a in b] for two strings: [a] occurs in [b] as a contiguous run. *)
Fixpoint str_in (a b : string) : bool :=
  String.prefix a b ||
  match b with
  | EmptyString => false
  | String _ t => str_in a t
  end.

(** [c * n] for a one-character string [c]. *)
Fixpoint str_mul (c : ascii) (n : nat) : string :=
  match n with
  | O => EmptyString
  | S k => String c (str_mul c k)
  end.

Definition newline : string := String (ascii_of_nat 10) EmptyString.

(** [sep.join(parts)] *)
Definition join (sep : string) (parts : list string) : string :=
  String.concat sep parts.

(** ["%s" % n] for a non-negative integer. *)
Definition str_of_N (n : N) : string := NilZero.string_of_uint (N.to_uint n).

Definition is_digit (c : ascii) : bool :=
  let n := nat_of_ascii c in (48 <=? n)%nat && (n <=? 57)%nat.

Fixpoint all_digits (s : string) : bool :=
  match s with
  | EmptyString => true
  | String c t => is_digit c && all_digits t
  end.

(** [s.isdigit()]: at least one character, all of them decimal digits. *)
Definition isdigit (s : string) : bool :=
  match s with
  | EmptyString => false
  | _ => all_digits s
  end.

Definition digit_value (c : ascii) : Z := Z.of_nat (nat_of_ascii c - 48).

(** *** [int(s)] on a string: surrounding white space is dropped, one sign
    is allowed, then decimal digits follow, single underscores allowed
    between two digits.  Anything else is a [ValueError] ([None]). *)

Definition is_space (c : ascii) : bool :=
  let n := nat_of_ascii c in
  ((9 <=? n)%nat && (n <=? 13)%nat) || (n =? 32)%nat
  || ((28 <=? n)%nat && (n <=? 31)%nat).

Fixpoint lstrip (s : string) : string :=
  match s with
  | String c t => if is_space c then lstrip t else s
  | EmptyString => EmptyString
  end.

Fixpoint rstrip (s : string) : string :=
  match s with
  | EmptyString => EmptyString
  | String c t =>
      match rstrip t with
      | EmptyString => if is_space c then EmptyString else String c EmptyString
      | t' => String c t'
      end
  end.

Definition strip (s : string) : string := rstrip (lstrip s).

(** The digits after the sign; [after_digit] tells that the previous
    character was a digit, which is where an underscore may stand. *)
Fixpoint int_digits (s : string) (acc : Z) (after_digit : bool) : option Z :=
  match s with
  | EmptyString => if after_digit then Some acc else None
  | String c t =>
      if is_digit c then int_digits t (10 * acc + digit_value c)%Z true
      else if (nat_of_ascii c =? 95)%nat && after_digit then
        match t with
        | String d _ => if is_digit d then int_digits t acc false else None
        | EmptyString => None
        end
      else None
  end.

Definition int_of_str (s : string) : option Z :=
  match strip s with
  | String "-" t => option_map Z.opp (int_digits t 0%Z false)
  | String "+" t => int_digits t 0%Z false
  | t => int_digits t 0%Z false
  end.


(** *** Lists.  An index [i] addresses position [i] when [0 <= i < len]
    and position [len + i] when [-len <= i < 0]; every other index is an
    [IndexError] ([None]). *)

Definition norm_index (len : nat) (i : Z) : option nat :=
  if (0 <=? i)%Z then
    if (i <? Z.of_nat len)%Z then Some (Z.to_nat i) else None
  else
    if (- Z.of_nat len <=? i)%Z then Some (Z.to_nat (Z.of_nat len + i)) else None.

(** [l[i]] *)
Definition getitem {A : Type} (l : list A) (i : Z) : option A :=
  match norm_index (List.length l) i with
  | Some p => nth_error l p
  | None => None
  end.

(** [l.pop(i)]: the removed element and what is left of the list. *)
Definition pop {A : Type} (l : list A) (i : Z) : option (A * list A) :=
  match norm_index (List.length l) i with
  | Some p =>
      match nth_error l p with
      | Some x => Some (x, firstn p l ++ skipn (S p) l)
      | None => None
      end
  | None => None
  end.

(** [l[i] = f(l[i])], the in-place update of one element. *)
Definition setitem {A : Type} (l : list A) (i : Z) (f : A -> A) : option (list A) :=
  match norm_index (List.length l) i with
  | Some p =>
      match nth_error l p with
      | Some x => Some (firstn p l ++ f x :: skipn (S p) l)
      | None => None
      end
  | None => None
  end.

(** [enumerate(l)] *)
Fixpoint enumerate_from {A : Type} (i : Z) (l : list A) : list (Z * A) :=
  match l with
  | [] => []
  | x :: t => (i, x) :: enumerate_from (i + 1)%Z t
  end.

Definition enumerate {A : Type} (l : list A) : list (Z * A) := enumerate_from 0%Z l.

End Py.

(** ** Data model *)

(** One secret: the dictionary built by [addItem], with its five keys.
    [category] holds the category number as the user typed it, or the empty
    string for none. *)
Record SecretItem := mkSecret {
  category : string;
  name : string;
  login : string;
  password : string;
  notes : string
}.

(** The keys of a secret that [editItemInput] is called with. *)
Inductive Field := F_category | F_name | F_login | F_password | F_notes.

(** [item[fieldName] = value] *)
Definition set_field (f : Field) (value : string) (item : SecretItem) : SecretItem :=
  match f with
  | F_category => mkSecret value (name item) (login item) (password item) (notes item)
  | F_name => mkSecret (category item) value (login item) (password item) (notes item)
  | F_login => mkSecret (category item) (name item) value (password item) (notes item)
  | F_password => mkSecret (category item) (name item) (login item) value (notes item)
  | F_notes => mkSecret (category item) (name item) (login item) (password item) value
  end.

(** Modelled from the spec: the code that creates categories is not under
    src/; a category is [{ id: ordinal integer, name: text }]. *)
Record Category := mkCategory {
  cat_id : Z;
  cat_name : string
}.

(** The decrypted vault, [self.vault]: a dictionary whose keys
    ['categories'] and ['secrets'] may each be absent ([None]). *)
Record Vault := mkVault {
  categories : option (list Category);
  secrets : option (list SecretItem)
}.

(** [d.get(key)] used as a condition: the key is there and its list is not
    empty. *)
Definition truthy {A : Type} (x : option (list A)) : bool :=
  match x with
  | Some (_ :: _) => true
  | _ => false
  end.

(** The exceptions the methods raise, catch or let through. *)
Inductive Exn :=
| KeyboardInterrupt
| IndexError
| KeyError
| TypeError
| AttributeError
| ValueError
| InputError            (* any other exception coming out of a prompt *)
| PersistenceError
| AuthenticationFailed
| VaultNotFound.

(** [except Exception] catches everything here but [KeyboardInterrupt]. *)
Definition is_Exception (e : Exn) : bool :=
  match e with
  | KeyboardInterrupt => false
  | _ => true
  end.

(** What the user does at a prompt of [input] or [getpass]. *)
Inductive Input :=
| Typed (s : string)    (* a line, without its end-of-line *)
| CtrlC                 (* KeyboardInterrupt *)
| Fault.                (* the prompt raises another exception *)

(** What the program shows. *)
Inductive Cell := CInt (z : Z) | CStr (s : string).

Inductive Event :=
| Print (s : string)                                   (* print(s) *)
| PrintCR (s : string)                                 (* print(s, end="\r") *)
| PrintExn (e : Exn)                                   (* print(e) *)
| Table (headers : list string) (rows : list (list Cell))  (* print(tabulate(rows, headers)) *)
| CategoriesList                                       (* self.categoriesList() *)
| Suggestion (label : string).                         (* a generated password offered after [label] *)

(** The file on disk.  The spec asks for authenticated encryption: a file
    written under a passphrase opens under that passphrase and no other,
    and gives back exactly what was written.  So a file is represented by
    the passphrase and the vault it was written from. *)
Definition VaultFile : Type := (string * Vault)%type.

Record World := mkWorld {
  (* attributes of [self] *)
  vault : option Vault;            (* None while locked *)
  masterKey : option string;
  hideSecretTTL : N;               (* self.config['hideSecretTTL'], in seconds *)
  timer : nat;                     (* how many times the idle deadline was reset *)
  (* outside the process *)
  clipboard : string;
  disk : option VaultFile;
  (* what is going to happen *)
  stdin : list Input;              (* answers to input() and getpass() *)
  confirms : list bool;            (* answers to confirm() *)
  idle : list bool;                (* at each idle check: has the TTL run out? *)
  faults : list bool;              (* at each write of the file: does it fail? *)
  interrupts : list bool;          (* at each sleep: is it interrupted? *)
  (* what has been shown, oldest first *)
  log : list Event
}.

Definition set_vault (v : option Vault) (w : World) : World :=
  mkWorld v (masterKey w) (hideSecretTTL w) (timer w) (clipboard w) (disk w)
          (stdin w) (confirms w) (idle w) (faults w) (interrupts w) (log w).

Definition set_masterKey (k : option string) (w : World) : World :=
  mkWorld (vault w) k (hideSecretTTL w) (timer w) (clipboard w) (disk w)
          (stdin w) (confirms w) (idle w) (faults w) (interrupts w) (log w).

Definition set_timer (n : nat) (w : World) : World :=
  mkWorld (vault w) (masterKey w) (hideSecretTTL w) n (clipboard w) (disk w)
          (stdin w) (confirms w) (idle w) (faults w) (interrupts w) (log w).

Definition set_clipboard (c : string) (w : World) : World :=
  mkWorld (vault w) (masterKey w) (hideSecretTTL w) (timer w) c (disk w)
          (stdin w) (confirms w) (idle w) (faults w) (interrupts w) (log w).

Definition set_disk (d : option VaultFile) (w : World) : World :=
  mkWorld (vault w) (masterKey w) (hideSecretTTL w) (timer w) (clipboard w) d
          (stdin w) (confirms w) (idle w) (faults w) (interrupts w) (log w).

Definition set_stdin (i : list Input) (w : World) : World :=
  mkWorld (vault w) (masterKey w) (hideSecretTTL w) (timer w) (clipboard w) (disk w)
          i (confirms w) (idle w) (faults w) (interrupts w) (log w).

Definition set_confirms (c : list bool) (w : World) : World :=
  mkWorld (vault w) (masterKey w) (hideSecretTTL w) (timer w) (clipboard w) (disk w)
          (stdin w) c (idle w) (faults w) (interrupts w) (log w).

Definition set_idle (i : list bool) (w : World) : World :=
  mkWorld (vault w) (masterKey w) (hideSecretTTL w) (timer w) (clipboard w) (disk w)
          (stdin w) (confirms w) i (faults w) (interrupts w) (log w).

Definition set_faults (f : list bool) (w : World) : World :=
  mkWorld (vault w) (masterKey w) (hideSecretTTL w) (timer w) (clipboard w) (disk w)
          (stdin w) (confirms w) (idle w) f (interrupts w) (log w).

Definition set_interrupts (i : list bool) (w : World) : World :=
  mkWorld (vault w) (masterKey w) (hideSecretTTL w) (timer w) (clipboard w) (disk w)
          (stdin w) (confirms w) (idle w) (faults w) i (log w).

(** Showing something appends to the log. *)
Definition emit (es : list Event) (w : World) : World :=
  mkWorld (vault w) (masterKey w) (hideSecretTTL w) (timer w) (clipboard w) (disk w)
          (stdin w) (confirms w) (idle w) (faults w) (interrupts w) (log w ++ es).

(** ** Outcomes of a call *)

Inductive Res (A : Type) :=
| Ret (a : A) (w : World)        (* the call returns [a] *)
| Raise (e : Exn) (w : World)    (* the call raises [e] *)
| Waiting                        (* the user is asked for more than [stdin] or [confirms] holds *)
| OutOfFuel.                     (* the bound on retries of the model is used up *)

Arguments Ret {A} a w.
Arguments Raise {A} e w.
Arguments Waiting {A}.
Arguments OutOfFuel {A}.

Definition M (A : Type) : Type := World -> Res A.

Definition bind {A B : Type} (m : M A) (k : A -> M B) : M B :=
  fun w =>
    match m w with
    | Ret a w' => k a w'
    | Raise e w' => Raise e w'
    | Waiting => Waiting
    | OutOfFuel => OutOfFuel
    end.

Notation "x <- m ;; k" := (bind m (fun x => k))
  (at level 61, m at next level, right associativity).
Notation "m ;;; k" := (bind m (fun _ => k))
  (at level 61, right associativity).

(** [print(...)] as a step of its own. *)
Definition say (es : list Event) : M unit := fun w => Ret tt (emit es w).

(** A property of the world a call ends in, whether it returns or raises. *)
Definition ends_in {A : Type} (P : World -> Prop) (r : Res A) : Prop :=
  match r with
  | Ret _ w => P w
  | Raise _ w => P w
  | Waiting => True
  | OutOfFuel => True
  end.

(** [try: ... except Exception as e: handler]: every exception but
    [KeyboardInterrupt] is handed to the handler. *)
Definition except_Exception {A : Type} (handler : Exn -> M A) (r : Res A) : Res A :=
  match r with
  | Raise e w => if is_Exception e then handler e w else Raise e w
  | _ => r
  end.

(** ** What the methods call that is not under src/ *)

(** [self.input(prompt)]: the next thing the user does at the prompt. *)
Definition input : M string :=
  fun w =>
    match stdin w with
    | [] => Waiting
    | Typed s :: rest => Ret s (set_stdin rest w)
    | CtrlC :: rest => Raise KeyboardInterrupt (set_stdin rest w)
    | Fault :: rest => Raise InputError (set_stdin rest w)
    end.

(** [getpass.getpass(prompt)] reads from the same terminal, without echo. *)
Definition getpass : M string := input.

(** [confirm(question, default)] of [modules.misc]: the user's yes or no. *)
Definition confirm : M bool :=
  fun w =>
    match confirms w with
    | [] => Waiting
    | b :: rest => Ret b (set_confirms rest w)
    end.

(** [time.sleep(seconds)]: the time passes, or Ctrl-C cuts the wait short. *)
Definition sleep (seconds : N) : M unit :=
  fun w =>
    match interrupts w with
    | true :: rest => Raise KeyboardInterrupt (set_interrupts rest w)
    | false :: rest => Ret tt (set_interrupts rest w)
    | [] => Ret tt w
    end.

(** Modelled from the spec: [setAutoLockTimer] is not under src/; an
    activity resets the idle deadline. *)
Definition setAutoLockTimer (w : World) : World := set_timer (S (timer w)) w.

(** Modelled from the spec: locking is not under src/; it discards the
    decrypted vault and the key. *)
Definition lock (w : World) : World := set_masterKey None (set_vault None w).

(** Modelled from the spec: [checkThenSetAutoLockTimer] is not under src/;
    once the idle TTL has run out the vault is locked, and the deadline is
    reset. *)
Definition checkThenSetAutoLockTimer (w : World) : World :=
  match idle w with
  | true :: rest => setAutoLockTimer (lock (set_idle rest w))
  | false :: rest => setAutoLockTimer (set_idle rest w)
  | [] => setAutoLockTimer w
  end.

(** Modelled from the spec: [saveVault] is not under src/; it serializes
    the whole vault, encrypts it with the live key and replaces the file in
    one step, so a failed write raises [PersistenceError] and leaves the
    file as it was; the vault in memory is not rolled back. *)
Definition saveVault : M unit :=
  fun w =>
    match vault w, masterKey w with
    | Some v, Some k =>
        match faults w with
        | true :: rest => Raise PersistenceError (set_faults rest w)
        | false :: rest => Ret tt (set_disk (Some (k, v)) (set_faults rest w))
        | [] => Ret tt (set_disk (Some (k, v)) w)
        end
    | _, _ => Raise TypeError w
    end.

(** Modelled from the spec: [unlock] is not under src/; it asks for the
    passphrase, loads the file and decrypts it; a wrong passphrase is an
    [AuthenticationFailed] that changes nothing, a success holds the
    decrypted vault and the key in memory and starts the idle timer.  The
    argument tells whether the menu follows; src/ only passes [False]. *)
Definition unlock (showMenu : bool) : M unit :=
  passphrase <- getpass ;;
  fun w =>
    match disk w with
    | None => Raise VaultNotFound w
    | Some (k, v) =>
        if passphrase =? k
        then Ret tt (setAutoLockTimer (set_masterKey (Some passphrase) (set_vault (Some v) w)))
        else Raise AuthenticationFailed w
    end.

(** Modelled from the spec: [clipboard] and [waitAndEraseClipboard] are not
    under src/; the value is put on the clipboard and, nothing else having
    been copied since, cleared after the wait. *)
Definition clipboard_put (value : string) : M unit :=
  fun w => Ret tt (set_clipboard value w).

Definition waitAndEraseClipboard : M unit :=
  fun w => Ret tt (set_clipboard "" w).

(** The loop that five methods open with:
    [while True: try: x = self.input(...); break]
    [except KeyboardInterrupt: print(); return]
    [except Exception: print(); pass].
    [Some x] is the line read, [None] tells the caller to return. *)
Fixpoint prompt_loop (ins : list Input) (w : World) : Res (option string) :=
  match ins with
  | [] => Waiting
  | Typed s :: rest => Ret (Some s) (set_stdin rest w)
  | CtrlC :: rest => Ret None (emit [Print ""] (set_stdin rest w))
  | Fault :: rest => prompt_loop rest (emit [Print ""] (set_stdin rest w))
  end.

Definition prompt : M (option string) := fun w => prompt_loop (stdin w) w.

(** The loop that reads the notes:
    [while True: input_str = self.input("> ")], until an empty line. *)
Fixpoint notes_loop (ins : list Input) (notes : list string) (w : World) : Res (list string) :=
  match ins with
  | [] => Waiting
  | Typed s :: rest =>
      if s =? "" then Ret notes (set_stdin rest w)
      else notes_loop rest (notes ++ [s]) (set_stdin rest w)
  | CtrlC :: rest => Raise KeyboardInterrupt (set_stdin rest w)
  | Fault :: rest => Raise InputError (set_stdin rest w)
  end.

Definition read_notes : M (list string) := fun w => notes_loop (stdin w) [] w.

(** [searchResultItems]: a dictionary from result numbers to item numbers,
    in insertion order. *)
Fixpoint dict_set (k v : Z) (d : list (Z * Z)) : list (Z * Z) :=
  match d with
  | [] => [(k, v)]
  | (k', v') :: t => if (k' =? k)%Z then (k, v) :: t else (k', v') :: dict_set k v t
  end.

Fixpoint dict_get (d : list (Z * Z)) (k : Z) : option Z :=
  match d with
  | [] => None
  | (k', v') :: t => if (k' =? k)%Z then Some v' else dict_get t k
  end.

Definition item_headers : list string := ["Category"; "Name / URL"; "Login"].

Definition result_headers : list string :=
  ["#"; "Item"; "Category"; "Name / URL"; "Login"].

(** ** The methods of [Vault] *)

Section Methods.

(** [self.categoryCheckId(id)] and [self.categoryName(id)] are not under
    src/: they are taken as they come, as functions of [self.vault] and of
    the category number. *)
Variable categoryCheckId : option Vault -> string -> bool.
Variable categoryName : option Vault -> string -> string.

(** [addItem], lines 95-113. *)
Definition addItem (categoryId name login password notes : string) : M unit :=
  fun w =>
    match vault w with
    | None => Raise AttributeError w
    | Some v =>
        (* if not self.vault.get('secrets'): self.vault['secrets'] = [] *)
        let present := match secrets v with Some (x :: l) => x :: l | _ => [] end in
        (* self.vault['secrets'].append({...}) *)
        let v' := mkVault (categories v)
                          (Some (present ++ [mkSecret categoryId name login password notes])) in
        saveVault (set_vault (Some v') w)
    end.

(** [itemCopyToClipboard], lines 192-200. *)
Definition itemCopyToClipboard (item : string) (name : string) : M unit :=
  clipboard_put item ;;;
  say [Print ("* The " ++ name ++ " has been copied to the clipboard.")%string] ;;;
  waitAndEraseClipboard.

(** [itemShowSecret], lines 202-217. *)
Definition itemShowSecret (password : string) : M unit :=
  fun w =>
    let attempt :=
      (say [Print ("The password will be hidden after "
                   ++ Py.str_of_N (hideSecretTTL w) ++ " seconds.")%string;
            PrintCR ("The password is: " ++ password)%string] ;;;
       sleep (hideSecretTTL w)) w in
    let mask := say [Print ("The password is: "
                            ++ Py.str_mul "*" (String.length password))%string] in
    match attempt with
    | Ret _ w' => mask w'
    | Raise KeyboardInterrupt w' => mask w'     (* except KeyboardInterrupt: pass *)
    | Raise e w' => Raise e w'
    | Waiting => Waiting
    | OutOfFuel => OutOfFuel
    end.

(** [itemDelete], lines 326-344. *)
Definition itemDelete (itemKey : Z) : M unit :=
  fun w =>
    let attempt : Res unit :=
      match vault w with
      | None => Raise TypeError w
      | Some v =>
          match secrets v with
          | None => Raise KeyError w
          | Some l =>
              match Py.getitem l itemKey with
              | None => Raise IndexError w
              | Some _ =>
                  (say [Print ""] ;;;
                   yes <- confirm ;;
                   if yes : bool then
                     match Py.pop l itemKey with
                     | None => fun w' => Raise IndexError w'
                     | Some (_, l') =>
                         fun w' => saveVault (set_vault (Some (mkVault (categories v) (Some l'))) w')
                     end
                   else fun w' => Ret tt w') w
              end
          end
      end in
    except_Exception (fun _ => say [Print "Item does not exist."]) attempt.

(** [editItemInput], lines 265-324.  [fuel] bounds the retries after an
    invalid category. *)
Fixpoint editItemInput (fuel : nat) (itemKey : Z) (fieldName : Field)
         (fieldCurrentValue : string) (w0 : World) : Res unit :=
  match fuel with
  | O => OutOfFuel
  | S fuel' =>
      let w := setAutoLockTimer w0 in
      let w := match fieldName with
               | F_password => w
               | _ => emit [Print ("* Current value: " ++ fieldCurrentValue)%string] w
               end in
      let attempt : Res string :=
        match fieldName with
        | F_password => (say [Suggestion "* Suggestion: "] ;;; getpass) w
        | F_category =>
            (say [Print ""; Print "* Available categories:"; CategoriesList; Print ""] ;;;
             fieldNewValue <- input ;;
             fun w1 =>
               if negb (fieldNewValue =? "")
                  && negb (categoryCheckId (vault w1) fieldNewValue)
               then
                 (say [Print "Invalid category. Please try again."] ;;;
                  editItemInput fuel' itemKey fieldName fieldCurrentValue ;;;
                  (fun w2 => Ret fieldNewValue w2)) w1
               else Ret fieldNewValue w1) w
        | F_notes =>
            (say [Print "* Notes: (press [ENTER] twice to complete)"] ;;;
             notes <- read_notes ;;
             fun w1 => Ret (Py.join Py.newline notes) w1) w
        | _ => input w
        end in
      match attempt with
      | Raise KeyboardInterrupt w1 => Ret tt (emit [Print ""] w1)
      | Raise e w1 => Raise e w1
      | Waiting => Waiting
      | OutOfFuel => OutOfFuel
      | Ret fieldNewValue w1 =>
          (* self.vault['secrets'][itemKey][fieldName] = fieldNewValue *)
          match vault w1 with
          | None => Raise TypeError w1
          | Some v =>
              match secrets v with
              | None => Raise KeyError w1
              | Some l =>
                  match Py.setitem l itemKey (set_field fieldName fieldNewValue) with
                  | None => Raise IndexError w1
                  | Some l' =>
                      (saveVault ;;; say [Print "The item has been updated."])
                        (set_vault (Some (mkVault (categories v) (Some l'))) w1)
                  end
              end
          end
      end
  end.

(** [itemEdit], lines 219-263.  [fuel] bounds the turns of the
    [while (True)] loop. *)
Fixpoint itemEdit (fuel : nat) (itemKey : Z) (item : SecretItem) (w0 : World) : Res unit :=
  match fuel with
  | O => OutOfFuel
  | S fuel' =>
      let w := emit [Print ""] (checkThenSetAutoLockTimer w0) in
      match prompt w with
      | Ret None w1 => Ret tt w1
      | Ret (Some typed) w1 =>
          let command := Py.lower typed in
          if command =? "c" then
            editItemInput fuel' itemKey F_category
                          (categoryName (vault w1) (category item)) w1
          else if command =? "n" then editItemInput fuel' itemKey F_name (name item) w1
          else if command =? "l" then editItemInput fuel' itemKey F_login (login item) w1
          else if command =? "p" then editItemInput fuel' itemKey F_password "" w1
          else if command =? "o" then editItemInput fuel' itemKey F_notes (notes item) w1
          else if command =? "b" then Ret tt w1
          else itemEdit fuel' itemKey item w1
      | Raise e w1 => Raise e w1
      | Waiting => Waiting
      | OutOfFuel => OutOfFuel
      end
  end.

(** [itemMenu], lines 150-190.  The result is the command handed back to
    the caller, or [None]. *)
Fixpoint itemMenu (fuel : nat) (itemKey : Z) (item : SecretItem) (w0 : World)
  : Res (option string) :=
  match fuel with
  | O => OutOfFuel
  | S fuel' =>
      let w := emit [Print ""] (checkThenSetAutoLockTimer w0) in
      match prompt w with
      | Ret None w1 => Ret None w1
      | Ret (Some typed) w1 =>
          let command := Py.lower typed in
          if command =? "l" then
            (itemCopyToClipboard (login item) "login" ;;; itemMenu fuel' itemKey item) w1
          else if command =? "p" then
            (itemCopyToClipboard (password item) "password" ;;; itemMenu fuel' itemKey item) w1
          else if command =? "o" then
            (itemShowSecret (password item) ;;; itemMenu fuel' itemKey item) w1
          else if command =? "e" then
            (itemEdit fuel' itemKey item ;;; (fun w2 => Ret None w2)) w1
          else if command =? "d" then
            (itemDelete itemKey ;;; (fun w2 => Ret None w2)) w1
          else if existsb (String.eqb command) ["s"; "b"; "q"] then Ret (Some command) w1
          else itemMenu fuel' itemKey item w1
      | Raise e w1 => Raise e w1
      | Waiting => Waiting
      | OutOfFuel => OutOfFuel
      end
  end.

(** Lines 127-142 of [get]: the item in a one-row table, then its notes
    when it has some. *)
Definition show_item (item : SecretItem) (w : World) : World :=
  let w1 := emit [Print "";
                  Table item_headers
                        [[CStr (categoryName (vault w) (category item));
                          CStr (name item); CStr (login item)]]] w in
  if notes item =? "" then w1
  else emit [Print ""; Print "Notes:"; Print (notes item)] w1.

(** Lines 146-148 of [get]: [print(e)], [print('Item does not exist.')]. *)
Definition item_does_not_exist (e : Exn) : M (option string) :=
  say [PrintExn e; Print "Item does not exist."] ;;; (fun w => Ret None w).

(** [get], lines 115-148.  [id] is the number [int(id)] evaluates to. *)
Definition get (fuel : nat) (id : Z) : M (option string) :=
  fun w0 =>
    let w := setAutoLockTimer w0 in
    let attempt : Res (option string) :=
      match vault w with
      | None => Raise TypeError w
      | Some v =>
          match secrets v with
          | None => Raise KeyError w
          | Some l =>
              (* item = self.vault['secrets'][int(id)] *)
              match Py.getitem l id with
              | None => Raise IndexError w
              | Some item => itemMenu fuel id item (show_item item w)
              end
          end
      end in
    except_Exception item_does_not_exist attempt.

(** [searchResultSelection], lines 436-467. *)
Definition searchResultSelection (fuel : nat) (searchResultItems : list (Z * Z))
  : M (option string) :=
  fun w0 =>
    let w := emit [Print ""] (setAutoLockTimer w0) in
    match prompt w with
    | Ret None w1 => Ret None w1
    | Ret (Some resultItem) w1 =>
        let attempt : Res (option string) :=
          match Py.int_of_str resultItem with
          | None => Raise ValueError w1
          | Some n =>
              match dict_get searchResultItems n with
              | None => Raise KeyError w1
              | Some id => get fuel id w1
              end
          end in
        except_Exception (fun _ => say [Print ""] ;;; (fun w2 => Ret None w2)) attempt
    | Raise e w1 => Raise e w1
    | Waiting => Waiting
    | OutOfFuel => OutOfFuel
    end.

(** The condition of line 397-400: the search, upper-cased, occurs in the
    upper-cased name, login, notes or category name of the item. *)
Definition search_hit (v : option Vault) (search : string) (item : SecretItem) : bool :=
  Py.str_in (Py.upper search) (Py.upper (name item))
  || Py.str_in (Py.upper search) (Py.upper (login item))
  || Py.str_in (Py.upper search) (Py.upper (notes item))
  || Py.str_in (Py.upper search) (Py.upper (categoryName v (category item))).

(** The [for i, item in enumerate(self.vault['secrets'])] loop of lines
    395-414, with its three accumulators. *)
Fixpoint search_loop (v : option Vault) (search : string) (items : list (Z * SecretItem))
         (results : list (list Cell)) (searchResultItems : list (Z * Z))
         (searchResultItemNumber : Z) : list (list Cell) * list (Z * Z) :=
  match items with
  | [] => (results, searchResultItems)
  | (i, item) :: rest =>
      if search_hit v search item then
        let number := (searchResultItemNumber + 1)%Z in
        search_loop v search rest
                    (results ++ [[CInt number; CInt i;
                                  CStr (categoryName v (category item));
                                  CStr (name item); CStr (login item)]])
                    (dict_set number i searchResultItems)
                    number
      else search_loop v search rest results searchResultItems searchResultItemNumber
  end.

(** Lines 391-432 of [search]: collect the results, then open the only
    one, offer the choice among several, or report that there is none. *)
Definition search_items (fuel : nat) (search : string) : M (option string) :=
  fun w =>
    match vault w with
    | None => Raise TypeError w
    | Some v =>
        match secrets v with
        | None => Raise KeyError w
        | Some l =>
            let '(results, searchResultItems) :=
              search_loop (vault w) search (Py.enumerate l) [] [] 0%Z in
            if (List.length results =? 1)%nat then
              match dict_get searchResultItems 1%Z with
              | None => Raise KeyError w
              | Some id => get fuel id w
              end
            else if (1 <? List.length results)%nat then
              (say [Print ""; Table result_headers results] ;;;
               searchResultSelection fuel searchResultItems) w
            else Ret None (emit [Print "No results!"] w)
        end
    end.

(** [search], lines 346-434. *)
Definition search (fuel : nat) : M (option string) :=
  fun w0 =>
    let w := emit [Print ""] (setAutoLockTimer w0) in
    match prompt w with
    | Ret None w1 => Ret None w1
    | Ret (Some search) w1 =>
        if search =? "" then Ret None (emit [Print ""; Print "Empty search!"] w1)
        else if existsb (String.eqb search) ["s"; "a"; "l"; "q"] then Ret (Some search) w1
        else if search =? "b" then Ret None w1
        else
          match vault w1 with
          | None => Raise AttributeError w1
          | Some v =>
              if truthy (secrets v) then
                (* [Some r]: the method returns [r]; [None]: it goes on *)
                let by_number : Res (option (option string)) :=
                  if Py.isdigit search then
                    match Py.int_of_str search with
                    | None => Raise ValueError w1
                    | Some n =>
                        match Py.getitem (match secrets v with Some l => l | None => [] end) n with
                        | None => Ret None w1                 (* except IndexError: pass *)
                        | Some _ =>
                            match get fuel n w1 with
                            | Ret r w2 => Ret (Some r) w2
                            | Raise IndexError w2 => Ret None w2
                            | Raise e w2 => Raise e w2
                            | Waiting => Waiting
                            | OutOfFuel => OutOfFuel
                            end
                        end
                    end
                  else Ret None w1 in
                match by_number with
                | Ret (Some r) w2 => Ret r w2
                | Ret None w2 => search_items fuel search w2
                | Raise e w2 => Raise e w2
                | Waiting => Waiting
                | OutOfFuel => OutOfFuel
                end
              else Ret None (emit [Print "There are no secrets saved yet."] w1)
          end
    | Raise e w1 => Raise e w1
    | Waiting => Waiting
    | OutOfFuel => OutOfFuel
    end.

(** [addItemInput], lines 30-93.  [fuel] bounds the retries after an
    invalid category. *)
Fixpoint addItemInput (fuel : nat) (w0 : World) : Res unit :=
  match fuel with
  | O => OutOfFuel
  | S fuel' =>
      let w := setAutoLockTimer w0 in
      match vault w with
      | None => Raise AttributeError w
      | Some v =>
          (* [Some c]: the category number to go on with; [None]: return *)
          let chosen : Res (option string) :=
            if truthy (categories v) then
              (say [Print ""; Print "* Available categories:"; CategoriesList; Print ""] ;;;
               answer <- prompt ;;
               match answer with
               | None => fun w1 => Ret None w1
               | Some categoryId =>
                   fun w1 =>
                     if negb (categoryId =? "")
                        && negb (categoryCheckId (vault w1) categoryId)
                     then
                       (say [Print "Invalid category. Please try again."] ;;;
                        addItemInput fuel' ;;;
                        (fun w2 => Ret (Some categoryId) w2)) w1
                     else Ret (Some categoryId) w1
               end) w
            else
              Ret (Some "")
                  (emit [Print "";
                         Print "* Category: you did not create a category yet. Create one from the main menu to use this feature!"] w) in
          match chosen with
          | Ret None w1 => Ret tt w1
          | Ret (Some categoryId) w1 =>
              let typed : Res (string * string * string * list string) :=
                (name <- input ;;
                 login <- input ;;
                 say [Suggestion "* Password suggestion: "] ;;;
                 password <- getpass ;;
                 say [Print "* Notes: (press [ENTER] twice to complete)"] ;;;
                 notes <- read_notes ;;
                 fun w2 => Ret (name, login, password, notes) w2) w1 in
              match typed with
              | Raise KeyboardInterrupt w2 => Ret tt w2       (* except KeyboardInterrupt: return *)
              | Raise e w2 => Raise e w2
              | Waiting => Waiting
              | OutOfFuel => OutOfFuel
              | Ret (name, login, password, notes) w2 =>
                  (addItem categoryId name login password (Py.join Py.newline notes) ;;;
                   say [Print ""; Print "The new item has been saved to your vault."; Print ""]) w2
              end
          | Raise e w1 => Raise e w1
          | Waiting => Waiting
          | OutOfFuel => OutOfFuel
          end
      end
  end.

(** [changeKey], lines 469-508.  [fuel] bounds the retries after a short
    or an unconfirmed key. *)
Fixpoint changeKey (fuel : nat) (w0 : World) : Res unit :=
  match fuel with
  | O => OutOfFuel
  | S fuel' =>
      ((* if self.vault is None: self.unlock(False) *)
       (fun w => match vault w with
                 | None => unlock false w
                 | Some _ => Ret tt w
                 end) ;;;
       say [Print ""] ;;;
       newMasterKey <- getpass ;;
       newMasterKeyRepeat <- getpass ;;
       if (String.length newMasterKey <? 8)%nat then
         say [Print "";
              Print "The master key should be at least 8 characters. Please try again!";
              Print ""] ;;;
         changeKey fuel'
       else if newMasterKey =? newMasterKeyRepeat then
         (* self.masterKey = newMasterKey *)
         (fun w => Ret tt (set_masterKey (Some newMasterKey) w)) ;;;
         saveVault ;;;
         say [Print ""; Print "Your master key has been updated."] ;;;
         unlock false
       else
         say [Print "";
              Print "The master key does not match its confirmation. Please try again!";
              Print ""] ;;;
         changeKey fuel') w0
  end.

End Methods.

(** ** Notions the properties are stated with *)









(** The secrets of a vault, none when the key ['secrets'] is absent. *)
Definition stored_secrets (v : Vault) : list SecretItem :=
  match secrets v with
  | Some l => l
  | None => []
  end.


(** Memory and disk agree: while the vault is unlocked, the file holds
    exactly the vault in memory, written under the live key. *)
Definition synced (w : World) : Prop :=
  match vault w with
  | None => True
  | Some v => exists k, masterKey w = Some k /\ disk w = Some (k, v)
  end.

(** No write of the file is going to fail. *)
Definition writes_succeed (w : World) : Prop :=
  Forall (fun b : bool => b = false) (faults w).

Definition persisted (w : World) : Prop := writes_succeed w /\ synced w.

(** What persistence is about: the vault and key in memory, the file, and
    the writes to come. *)
Definition store_of (w : World) : option Vault * option string * option VaultFile * list bool :=
  (vault w, masterKey w, disk w, faults w).

(** A step that leaves all of that alone, however it ends. *)
Definition quiet {A : Type} (m : M A) : Prop :=
  forall w, ends_in (fun w' => store_of w' = store_of w) (m w).

(** A step that keeps a property of the world, however it ends. *)
Definition preserves {A : Type} (P : World -> Prop) (m : M A) : Prop :=
  forall w, P w -> ends_in P (m w).

(** A property that only looks at the store. *)
Definition store_property (P : World -> Prop) : Prop :=
  forall w w', store_of w' = store_of w -> P w -> P w'.

(** Neither the live key nor the key of the file is shorter than 8. *)
Definition keys_long_enough (w : World) : Prop :=
  (forall k, masterKey w = Some k -> (8 <= String.length k)%nat)
  /\ (forall k v, disk w = Some (k, v) -> (8 <= String.length k)%nat).

(** ** A vault to run the methods on *)

(** Modelled from the spec: [categoryCheckId] is not under src/; a category
    number references an existing category when it is the id of one. *)
Definition categoryCheckId_model (v : option Vault) (id : string) : bool :=
  match v, Py.int_of_str id with
  | Some v', Some n =>
      match categories v' with
      | Some cs => existsb (fun c => (cat_id c =? n)%Z) cs
      | None => false
      end
  | _, _ => false
  end.

(** Modelled from the spec: [categoryName] is not under src/; a category
    number resolves to the name of the category it references, and to the
    empty name when it references none. *)
Definition categoryName_model (v : option Vault) (id : string) : string :=
  match v, Py.int_of_str id with
  | Some v', Some n =>
      match categories v' with
      | Some cs =>
          match find (fun c => (cat_id c =? n)%Z) cs with
          | Some c => cat_name c
          | None => ""
          end
      | None => ""
      end
  | _, _ => ""
  end.

Definition bank : SecretItem := mkSecret "0" "bank" "alice" "p1" "".
Definition mail : SecretItem := mkSecret "1" "Mail" "alice@example.org" "p2" "work account".
Definition shop : SecretItem := mkSecret "" "shop" "bob" "p3" "".

Definition sample_vault : Vault :=
  mkVault (Some [mkCategory 0 "Finance"; mkCategory 1 "Post"])
          (Some [bank; mail; shop]).

(** An unlocked session on [sample_vault], in step with its file. *)
Definition sample_world (typed : list Input) (yes_no : list bool) (write_fails : list bool)
  : World :=
  mkWorld (Some sample_vault) (Some "correcthorse") 5%N 0 ""
          (Some ("correcthorse", sample_vault))
          typed yes_no [] write_fails [] [].

(** ** Further notions *)

(** The idle TTL does not run out at any of the idle checks to come. *)
Definition awake (w : World) : Prop :=
  Forall (fun b : bool => b = false) (idle w).

(** A call that ended in the world [w'], by returning or by raising. *)
Definition ended {A : Type} (r : Res A) (w' : World) : Prop :=
  (exists a, r = Ret a w') \/ (exists e, r = Raise e w').

(** A call that hands back nothing or one of the [allowed] commands. *)
Definition hands_back (allowed : list string) (r : Res (option string)) : Prop :=
  match r with
  | Ret (Some command) _ => In command allowed
  | _ => True
  end.

(** Relative to the world [w0] a call started in: the categories are the
    same, a locked vault is still locked, and the master key is the same
    or has been discarded by a lock. *)
Definition kept_from (w0 w : World) : Prop :=
  (forall v0 v, vault w0 = Some v0 -> vault w = Some v -> categories v = categories v0)
  /\ (vault w0 = None -> vault w = None)
  /\ (masterKey w = masterKey w0 \/ masterKey w = None).

(** Two indices that address different positions of a list of length
    [len], or of which one addresses none. *)
Definition other_position (len : nat) (j k : Z) : Prop :=
  Py.norm_index len j <> Py.norm_index len k.

(** An attempt at a new master key, typed and typed again, that
    [changeKey] turns down: it is too short or the two do not agree. *)
Definition rejected (attempt : string * string) : Prop :=
  (String.length (fst attempt) < 8)%nat \/ fst attempt <> snd attempt.

Definition typed_twice (attempts : list (string * string)) : list Input :=
  flat_map (fun a : string * string => [Typed (fst a); Typed (snd a)]) attempts.

(** The letter that selects a field in the edit menu, lines 246-261. *)
Definition edit_command (fieldName : Field) : string :=
  match fieldName with
  | F_category => "c"
  | F_name => "n"
  | F_login => "l"
  | F_password => "p"
  | F_notes => "o"
  end.

(** * Properties *)

(** ** Python lists *)

Lemma norm_index_nonneg (len : nat) (i : Z) :
  (0 <= i < Z.of_nat len)%Z -> Py.norm_index len i = Some (Z.to_nat i).
Proof.
  intros H. unfold Py.norm_index.
  destruct (Z.leb_spec 0 i); [|lia].
  destruct (Z.ltb_spec i (Z.of_nat len)); [reflexivity|lia].
Qed.

Lemma norm_index_negative (len : nat) (k : Z) :
  (1 <= k <= Z.of_nat len)%Z -> Py.norm_index len (- k) = Some (len - Z.to_nat k)%nat.
Proof.
  intros H. unfold Py.norm_index.
  destruct (Z.leb_spec 0 (- k)); [lia|].
  destruct (Z.leb_spec (- Z.of_nat len) (- k)); [|lia].
  f_equal. lia.
Qed.

Lemma norm_index_outside (len : nat) (i : Z) :
  (Z.of_nat len <= i \/ i < - Z.of_nat len)%Z -> Py.norm_index len i = None.
Proof.
  intros H. unfold Py.norm_index.
  destruct (Z.leb_spec 0 i).
  - destruct (Z.ltb_spec i (Z.of_nat len)); [lia|reflexivity].
  - destruct (Z.leb_spec (- Z.of_nat len) i); [lia|reflexivity].
Qed.

Lemma getitem_nonneg {A : Type} (l : list A) (i : Z) :
  (0 <= i < Z.of_nat (length l))%Z -> Py.getitem l i = nth_error l (Z.to_nat i).
Proof. intros H. unfold Py.getitem. now rewrite norm_index_nonneg. Qed.

Lemma getitem_negative {A : Type} (l : list A) (k : Z) :
  (1 <= k <= Z.of_nat (length l))%Z ->
  Py.getitem l (- k) = nth_error l (length l - Z.to_nat k).
Proof. intros H. unfold Py.getitem. now rewrite norm_index_negative. Qed.

Lemma getitem_outside {A : Type} (l : list A) (i : Z) :
  (Z.of_nat (length l) <= i \/ i < - Z.of_nat (length l))%Z -> Py.getitem l i = None.
Proof. intros H. unfold Py.getitem. now rewrite norm_index_outside. Qed.

Lemma getitem_In {A : Type} (l : list A) (i : Z) (x : A) :
  Py.getitem l i = Some x -> In x l.
Proof.
  unfold Py.getitem. destruct (Py.norm_index (length l) i); [|discriminate].
  apply nth_error_In.
Qed.

(** Taking position [p] out of a list. *)
Lemma cut_out {A : Type} (l : list A) (p : nat) (x : A) :
  nth_error l p = Some x ->
  exists l1 l2,
    l = l1 ++ x :: l2 /\ length l1 = p /\ firstn p l ++ skipn (S p) l = l1 ++ l2.
Proof.
  intros H. destruct (nth_error_split l p H) as (l1 & l2 & -> & Hlen).
  exists l1, l2. repeat split; trivial.
  subst p. clear H. induction l1 as [|y l1 IH]; simpl; [reflexivity|].
  f_equal. exact IH.
Qed.

Lemma pop_nonneg {A : Type} (l : list A) (k : Z) :
  (0 <= k < Z.of_nat (length l))%Z ->
  exists x l1 l2,
    l = l1 ++ x :: l2 /\ length l1 = Z.to_nat k
    /\ Py.getitem l k = Some x /\ Py.pop l k = Some (x, l1 ++ l2).
Proof.
  intros H.
  destruct (nth_error l (Z.to_nat k)) as [x|] eqn:Hx.
  - destruct (cut_out l _ x Hx) as (l1 & l2 & Hl & Hlen & Hcut).
    exists x, l1, l2. repeat split; trivial.
    + rewrite getitem_nonneg by trivial. exact Hx.
    + unfold Py.pop. rewrite norm_index_nonneg by trivial. now rewrite Hx, Hcut.
  - apply nth_error_None in Hx. lia.
Qed.

(** ** Deleting a secret *)

Lemma itemDelete_confirmed (w : World) (v : Vault) (l l' : list SecretItem)
      (k : Z) (item : SecretItem) (more : list bool) :
  vault w = Some v -> secrets v = Some l -> confirms w = true :: more ->
  Py.getitem l k = Some item -> Py.pop l k = Some (item, l') ->
  exists w', itemDelete k w = Ret tt w'
             /\ vault w' = Some (mkVault (categories v) (Some l')).
Proof.
  intros Hv Hs Hc Hg Hp. unfold itemDelete. rewrite Hv, Hs, Hg.
  unfold bind, say, confirm. simpl. rewrite Hc, Hp.
  unfold saveVault. simpl.
  destruct (masterKey w) as [key|]; simpl.
  - destruct (faults w) as [|[|] rest]; simpl; eexists; split; reflexivity.
  - eexists; split; reflexivity.
Qed.

(** C2.  Deleting the secret at a valid index [k], once confirmed, takes
    exactly that secret out of the sequence: the sequence before is the
    sequence after with the secret put back at position [k]; the secrets
    below [k] keep their indices, every secret at an index [j > k] is then
    at [j - 1], the last index is no longer in range, and, the secrets being
    pairwise distinct, no index retrieves the deleted one any more. *)
Theorem itemDelete_shifts_indices :
  forall (w : World) (v : Vault) (l : list SecretItem) (k : Z) (more : list bool),
    vault w = Some v -> secrets v = Some l -> confirms w = true :: more ->
    (0 <= k < Z.of_nat (length l))%Z ->
    exists (w' : World) (item : SecretItem) (l' : list SecretItem),
      itemDelete k w = Ret tt w'
      /\ Py.getitem l k = Some item
      /\ vault w' = Some (mkVault (categories v) (Some l'))
      /\ l = firstn (Z.to_nat k) l' ++ item :: skipn (Z.to_nat k) l'
      /\ (forall j, (0 <= j < k)%Z -> Py.getitem l' j = Py.getitem l j)
      /\ (forall j, (k < j < Z.of_nat (length l))%Z ->
                    Py.getitem l' (j - 1) = Py.getitem l j)
      /\ Py.getitem l' (Z.of_nat (length l) - 1) = None
      /\ (NoDup l -> forall j, Py.getitem l' j <> Some item).
Proof.
  intros w v l k more Hv Hs Hc Hk.
  destruct (pop_nonneg l k Hk) as (item & l1 & l2 & Hl & Hlen & Hg & Hp).
  destruct (itemDelete_confirmed w v l (l1 ++ l2) k item more Hv Hs Hc Hg Hp)
    as (w' & Hrun & Hvault).
  exists w', item, (l1 ++ l2).
  assert (Hlength : length l = S (length (l1 ++ l2))).
  { rewrite Hl. rewrite !length_app. simpl. lia. }
  repeat split; trivial.
  - rewrite <- Hlen. rewrite firstn_app, firstn_all, Nat.sub_diag. simpl.
    rewrite app_nil_r, skipn_app, skipn_all, Nat.sub_diag. simpl. exact Hl.
  - intros j Hj.
    rewrite !getitem_nonneg by lia.
    rewrite Hl. rewrite !nth_error_app1 by lia. reflexivity.
  - intros j Hj.
    rewrite !getitem_nonneg by lia.
    rewrite Hl. rewrite !nth_error_app2 by lia.
    replace (Z.to_nat j - length l1)%nat with (S (Z.to_nat (j - 1) - length l1)) by lia.
    reflexivity.
  - apply getitem_outside. lia.
  - intros Hnd j Hj. apply getitem_In in Hj.
    rewrite Hl in Hnd. apply NoDup_remove_2 in Hnd. contradiction.
Qed.

(** C2 at work: deleting the second of the three sample secrets. *)
Lemma itemDelete_shifts_indices_witness :
  exists (w' : World) (item : SecretItem) (l' : list SecretItem),
    itemDelete 1 (sample_world [] [true] []) = Ret tt w'
    /\ Py.getitem [bank; mail; shop] 1 = Some item
    /\ vault w' = Some (mkVault (categories sample_vault) (Some l'))
    /\ [bank; mail; shop] = firstn (Z.to_nat 1) l' ++ item :: skipn (Z.to_nat 1) l'
    /\ (forall j, (0 <= j < 1)%Z -> Py.getitem l' j = Py.getitem [bank; mail; shop] j)
    /\ (forall j, (1 < j < Z.of_nat (length [bank; mail; shop]))%Z ->
                  Py.getitem l' (j - 1) = Py.getitem [bank; mail; shop] j)
    /\ Py.getitem l' (Z.of_nat (length [bank; mail; shop]) - 1) = None
    /\ (NoDup [bank; mail; shop] -> forall j, Py.getitem l' j <> Some item).
Proof.
  apply (itemDelete_shifts_indices (sample_world [] [true] []) sample_vault
                                   [bank; mail; shop] 1 []).
  - reflexivity.
  - reflexivity.
  - reflexivity.
  - simpl. lia.
Defined.

(** ** Retrieving a secret by its index *)

Section Retrieval.

Variable categoryCheckId : option Vault -> string -> bool.
Variable categoryName : option Vault -> string -> string.


(** C5, as the code has it.  An index [i] with [i >= length] or
    [i < -length] retrieves nothing: [get] reports that the item does not
    exist, shows no item and returns [None]. *)
Theorem get_outside_range :
  forall (fuel : nat) (w : World) (v : Vault) (l : list SecretItem) (i : Z),
    vault w = Some v -> secrets v = Some l ->
    (Z.of_nat (length l) <= i \/ i < - Z.of_nat (length l))%Z ->
    get categoryCheckId categoryName fuel i w
    = Ret None (emit [PrintExn IndexError; Print "Item does not exist."]
                     (setAutoLockTimer w)).
Proof.
  intros fuel w v l i Hv Hs Hi. unfold get. simpl.
  rewrite Hv, Hs, getitem_outside by exact Hi. reflexivity.
Qed.

(** C9.  On a non-empty sequence a negative index [-k] with
    [1 <= k <= length] addresses the secret at position [length - k]:
    [get] shows that secret and opens its menu, under the handler of its
    [try]; when the user then goes back with [b], [get] returns that
    command, having reported no missing item. *)
Theorem get_negative_index :
  forall (fuel : nat) (w : World) (v : Vault) (l : list SecretItem) (k : Z),
    vault w = Some v -> secrets v = Some l ->
    (1 <= k <= Z.of_nat (length l))%Z ->
    exists item : SecretItem,
      nth_error l (length l - Z.to_nat k) = Some item
      /\ get categoryCheckId categoryName fuel (- k) w
         = except_Exception item_does_not_exist
             (itemMenu categoryCheckId categoryName fuel (- k) item
                       (show_item categoryName item (setAutoLockTimer w)))
      /\ (forall rest,
             stdin w = Typed "b" :: rest ->
             get categoryCheckId categoryName (S fuel) (- k) w
             = Ret (Some "b")
                   (set_stdin rest
                      (emit [Print ""]
                         (checkThenSetAutoLockTimer
                            (show_item categoryName item (setAutoLockTimer w)))))).
Proof.
  intros fuel w v l k Hv Hs Hk.
  destruct (nth_error l (length l - Z.to_nat k)) as [item|] eqn:Hitem.
  - exists item. split; [reflexivity|].
    assert (Hget : forall n,
               get categoryCheckId categoryName n (- k) w
               = except_Exception item_does_not_exist
                   (itemMenu categoryCheckId categoryName n (- k) item
                             (show_item categoryName item (setAutoLockTimer w)))).
    { intros n. unfold get. simpl. rewrite Hv, Hs, getitem_negative by exact Hk.
      rewrite Hitem. reflexivity. }
    split; [apply Hget|].
    intros rest Hin. rewrite Hget. simpl.
    assert (Hstdin : stdin (emit [Print ""]
                              (checkThenSetAutoLockTimer
                                 (show_item categoryName item (setAutoLockTimer w))))
                     = Typed "b" :: rest).
    { unfold checkThenSetAutoLockTimer, show_item.
      destruct (notes item =? ""); simpl;
        destruct (idle w) as [|[|] more]; simpl; exact Hin. }
    unfold prompt. rewrite Hstdin. reflexivity.
  - apply nth_error_None in Hitem. lia.
Qed.

End Retrieval.

(** C5 at work with the amended bounds: index 3 of three secrets. *)
Lemma get_outside_range_witness :
  (Z.of_nat (length [bank; mail; shop]) <= 3
   \/ 3 < - Z.of_nat (length [bank; mail; shop]))%Z
  /\ get categoryCheckId_model categoryName_model 1 3 (sample_world [] [] [])
     = Ret None (emit [PrintExn IndexError; Print "Item does not exist."]
                      (setAutoLockTimer (sample_world [] [] []))).
Proof.
  split.
  - left. simpl. lia.
  - apply (get_outside_range categoryCheckId_model categoryName_model 1
                             (sample_world [] [] []) sample_vault [bank; mail; shop] 3).
    + reflexivity.
    + reflexivity.
    + left. simpl. lia.
Defined.

(** C5 as stated fails: -1 is outside the positions 0, 1, 2 of the three
    sample secrets, yet [get] does not report a missing item; it shows the
    last secret and opens its menu. *)
Lemma get_minus_one_counterexample :
  (-1 < 0)%Z
  /\ get categoryCheckId_model categoryName_model 1 (-1) (sample_world [Typed "b"] [] [])
     <> Ret None (emit [PrintExn IndexError; Print "Item does not exist."]
                       (setAutoLockTimer (sample_world [Typed "b"] [] [])))
  /\ exists w',
      get categoryCheckId_model categoryName_model 1 (-1) (sample_world [Typed "b"] [] [])
      = Ret (Some "b") w'
      /\ log w' = [Print "";
                   Table item_headers [[CStr ""; CStr "shop"; CStr "bob"]];
                   Print ""].
Proof.
  split; [lia|]. split.
  - vm_compute. discriminate.
  - eexists. split; reflexivity.
Qed.

(** C9 at work: index -1 of the three sample secrets is [shop]. *)
Lemma get_negative_index_witness :
  (1 <= 1 <= Z.of_nat (length [bank; mail; shop]))%Z
  /\ exists item : SecretItem,
      nth_error [bank; mail; shop] (length [bank; mail; shop] - Z.to_nat 1) = Some item
      /\ get categoryCheckId_model categoryName_model 2 (- (1)) (sample_world [Typed "b"] [] [])
         = except_Exception item_does_not_exist
             (itemMenu categoryCheckId_model categoryName_model 2 (- (1)) item
                       (show_item categoryName_model item
                                  (setAutoLockTimer (sample_world [Typed "b"] [] []))))
      /\ (forall rest,
             stdin (sample_world [Typed "b"] [] []) = Typed "b" :: rest ->
             get categoryCheckId_model categoryName_model 3 (- (1))
                 (sample_world [Typed "b"] [] [])
             = Ret (Some "b")
                   (set_stdin rest
                      (emit [Print ""]
                         (checkThenSetAutoLockTimer
                            (show_item categoryName_model item
                               (setAutoLockTimer (sample_world [Typed "b"] [] []))))))).
Proof.
  split.
  - simpl. lia.
  - apply (get_negative_index categoryCheckId_model categoryName_model 2
                              (sample_world [Typed "b"] [] []) sample_vault
                              [bank; mail; shop] 1).
    + reflexivity.
    + reflexivity.
    + simpl. lia.
Defined.

(** ** Python strings *)

















(** ** Searching *)





Section Searching.

Variable categoryCheckId : option Vault -> string -> bool.
Variable categoryName : option Vault -> string -> string.






End Searching.




(** ** Showing a secret *)



(** Both ends of the wait, on the sample world: the delay elapses, and the
    wait is interrupted. *)
Example itemShowSecret_elapsed :
  option_map (@log) (match itemShowSecret "p1" (sample_world [] [] []) with
                     | Ret _ w' => Some w'
                     | _ => None
                     end)
  = Some [Print "The password will be hidden after 5 seconds.";
          PrintCR "The password is: p1";
          Print "The password is: **"].
Proof. reflexivity. Qed.

Example itemShowSecret_interrupted :
  option_map (@log)
             (match itemShowSecret "p1" (set_interrupts [true] (sample_world [] [] [])) with
              | Ret _ w' => Some w'
              | _ => None
              end)
  = Some [Print "The password will be hidden after 5 seconds.";
          PrintCR "The password is: p1";
          Print "The password is: **"].
Proof. reflexivity. Qed.

(** ** Steps that do not touch the store *)

Lemma preserves_bind {A B : Type} (P : World -> Prop) (m : M A) (k : A -> M B) :
  preserves P m -> (forall a, preserves P (k a)) -> preserves P (bind m k).
Proof.
  intros Hm Hk w Hw. unfold bind. specialize (Hm w Hw).
  destruct (m w) as [a w'|e w'| |]; simpl in *; trivial. now apply Hk.
Qed.

Lemma quiet_preserves {A : Type} (P : World -> Prop) (m : M A) :
  store_property P -> quiet m -> preserves P m.
Proof.
  intros HP Hm w Hw. specialize (Hm w).
  destruct (m w) as [a w'|e w'| |]; simpl in *; trivial; now apply (HP w w').
Qed.

Lemma quiet_say (es : list Event) : quiet (say es).
Proof. intros w. reflexivity. Qed.

Lemma quiet_input : quiet input.
Proof. intros w. unfold input. destruct (stdin w) as [|[s| |] rest]; simpl; trivial. Qed.

Lemma quiet_getpass : quiet getpass.
Proof. exact quiet_input. Qed.

Lemma quiet_confirm : quiet confirm.
Proof. intros w. unfold confirm. destruct (confirms w); simpl; trivial. Qed.

Lemma quiet_prompt : quiet prompt.
Proof.
  intros w. unfold prompt.
  assert (H : forall ins w0, store_of w0 = store_of w ->
                             ends_in (fun w' => store_of w' = store_of w) (prompt_loop ins w0)).
  { induction ins as [|[s| |] rest IH]; intros w0 H0; simpl; trivial.
    apply IH. exact H0. }
  now apply H.
Qed.

Lemma quiet_read_notes : quiet read_notes.
Proof.
  intros w. unfold read_notes.
  assert (H : forall ins notes w0, store_of w0 = store_of w ->
                ends_in (fun w' => store_of w' = store_of w) (notes_loop ins notes w0)).
  { induction ins as [|[s| |] rest IH]; intros notes w0 H0; simpl; trivial.
    destruct (s =? ""); simpl; [exact H0|]. apply IH. exact H0. }
  now apply H.
Qed.

Lemma persisted_store_property : store_property persisted.
Proof.
  intros w w' H [Hw Hs]. unfold store_of in H. injection H as Hv Hk Hd Hf.
  unfold persisted, writes_succeed, synced in *. now rewrite Hv, Hk, Hd, Hf.
Qed.

Lemma keys_store_property : store_property keys_long_enough.
Proof.
  intros w w' H Hw. unfold store_of in H. injection H as Hv Hk Hd Hf.
  unfold keys_long_enough in *. now rewrite Hk, Hd.
Qed.

Create HintDb vault.

#[local] Hint Resolve quiet_say quiet_input quiet_getpass quiet_confirm quiet_prompt
  quiet_read_notes persisted_store_property keys_store_property : vault.
#[local] Hint Resolve quiet_preserves : vault.

(** ** Saving and unlocking *)

Lemma saveVault_persists (w : World) :
  writes_succeed w ->
  (forall v, vault w = Some v -> exists k, masterKey w = Some k) ->
  ends_in persisted (saveVault w).
Proof.
  intros Hw Hk. unfold saveVault.
  destruct (vault w) as [v|] eqn:Hv.
  - destruct (Hk v eq_refl) as [k Hkey]. rewrite Hkey.
    unfold writes_succeed in Hw.
    destruct (faults w) as [|[|] rest] eqn:Hf; simpl.
    + split; [unfold writes_succeed; simpl; now rewrite Hf|].
      unfold synced. simpl. rewrite Hv. now exists k.
    + inversion Hw; discriminate.
    + split; [unfold writes_succeed; simpl; now inversion Hw|].
      unfold synced. simpl. rewrite Hv. now exists k.
  - simpl. split; [exact Hw|]. unfold synced. now rewrite Hv.
Qed.

Lemma unlock_persists (showMenu : bool) : preserves persisted (unlock showMenu).
Proof.
  unfold unlock. apply preserves_bind; [auto with vault|].
  intros passphrase w [Hw Hs].
  destruct (disk w) as [[k v]|] eqn:Hd; simpl; [|now split].
  destruct (String.eqb_spec passphrase k) as [->|Hne]; simpl; [|now split].
  split; [exact Hw|]. unfold synced. simpl. exists k. now rewrite Hd.
Qed.

Lemma unlock_keeps_keys_long (showMenu : bool) :
  preserves keys_long_enough (unlock showMenu).
Proof.
  unfold unlock. apply preserves_bind; [auto with vault|].
  intros passphrase w Hinv. pose proof Hinv as [Hk Hd].
  destruct (disk w) as [[k v]|] eqn:Hdisk; simpl; [|exact Hinv].
  destruct (String.eqb_spec passphrase k) as [->|Hne]; simpl; [|exact Hinv].
  split.
  - simpl. intros k' Hk'. injection Hk' as <-. now apply (Hd k v).
  - simpl. rewrite Hdisk. exact Hd.
Qed.

#[local] Hint Resolve unlock_persists unlock_keeps_keys_long : vault.

Lemma saveVault_keeps_keys_long : preserves keys_long_enough saveVault.
Proof.
  intros w [Hk Hd]. unfold saveVault.
  destruct (vault w) as [v|]; [|now split].
  destruct (masterKey w) as [k|] eqn:Hkey; [|split; [now rewrite Hkey|exact Hd]].
  assert (Hinv : keys_long_enough w) by (split; [now rewrite Hkey|exact Hd]).
  destruct (faults w) as [|[|] rest]; simpl; trivial.
  - split; simpl; [now rewrite Hkey|]. intros k' v' H. injection H as <- _. now apply Hk.
  - split; simpl; [now rewrite Hkey|]. intros k' v' H. injection H as <- _. now apply Hk.
Qed.

(** ** Every change is followed by a save *)

Lemma ends_in_bind {A B : Type} (P : World -> Prop) (m : M A) (k : A -> M B) (w : World) :
  ends_in P (m w) -> (forall a, preserves P (k a)) -> ends_in P (bind m k w).
Proof.
  intros Hm Hk. unfold bind.
  destruct (m w) as [a w'|e w'| |]; simpl in *; trivial. now apply Hk.
Qed.

Lemma except_Exception_ends_in {A : Type} (P : World -> Prop) (handler : Exn -> M A)
      (r : Res A) :
  ends_in P r -> (forall e, preserves P (handler e)) -> ends_in P (except_Exception handler r).
Proof.
  intros Hr Hh. destruct r as [a w|e w| |]; simpl in *; trivial.
  destruct (is_Exception e); [now apply Hh|exact Hr].
Qed.

Lemma persisted_key (w : World) (v : Vault) :
  persisted w -> vault w = Some v -> exists k, masterKey w = Some k.
Proof.
  intros [_ Hs] Hv. unfold synced in Hs. rewrite Hv in Hs.
  destruct Hs as (k & Hk & _). now exists k.
Qed.

Ltac quietly P_store :=
  apply quiet_preserves; [exact P_store|auto with vault].

Lemma addItem_persists (categoryId name login password notes : string) :
  preserves persisted (addItem categoryId name login password notes).
Proof.
  intros w Hw. unfold addItem.
  destruct (vault w) as [v|] eqn:Hv; simpl; [|exact Hw].
  apply saveVault_persists; [exact (proj1 Hw)|].
  simpl. intros v0 ?. exact (persisted_key w v Hw Hv).
Qed.

Lemma itemDelete_persists (itemKey : Z) : preserves persisted (itemDelete itemKey).
Proof.
  intros w Hw. unfold itemDelete.
  apply except_Exception_ends_in;
    [|intros e; apply quiet_preserves; [exact persisted_store_property|apply quiet_say]].
  destruct (vault w) as [v|] eqn:Hv; [|exact Hw].
  destruct (secrets v) as [l|]; [|exact Hw].
  destruct (Py.getitem l itemKey); [|exact Hw].
  unfold bind, say, confirm. simpl.
  destruct (confirms w) as [|[|] more]; simpl; trivial.
  destruct (Py.pop l itemKey) as [[x l']|]; [|exact Hw].
  apply saveVault_persists; [exact (proj1 Hw)|].
  simpl. intros v0 ?. exact (persisted_key w v Hw Hv).
Qed.

Section Persistence.

Variable categoryCheckId : option Vault -> string -> bool.

Lemma editItemInput_persists :
  forall (fuel : nat) (itemKey : Z) (fieldName : Field) (current : string),
    preserves persisted (editItemInput categoryCheckId fuel itemKey fieldName current).
Proof.
  induction fuel as [|fuel IH]; intros itemKey fieldName current w Hw; [exact I|].
  cbn [editItemInput].
  match goal with
  | |- ends_in _ (match ?r with _ => _ end) =>
      assert (Hr : ends_in persisted r); [|destruct r as [value w1|e w1| |]]
  end.
  - destruct fieldName.
    + apply preserves_bind; [quietly persisted_store_property| |exact Hw].
      intros ?; cbv beta. apply preserves_bind; [quietly persisted_store_property|].
      intros value w1 Hw1.
      destruct (negb (value =? "") && negb (categoryCheckId (vault w1) value));
        [|exact Hw1].
      apply preserves_bind; [quietly persisted_store_property| |exact Hw1].
      intros ?; cbv beta. apply preserves_bind; [apply IH|].
      intros ? w2 Hw2. exact Hw2.
    + apply (quiet_preserves persisted input persisted_store_property quiet_input).
      exact Hw.
    + apply (quiet_preserves persisted input persisted_store_property quiet_input).
      exact Hw.
    + apply preserves_bind; [quietly persisted_store_property| |exact Hw].
      intros ?; cbv beta. quietly persisted_store_property.
    + apply preserves_bind; [quietly persisted_store_property| |exact Hw].
      intros ?; cbv beta. apply preserves_bind; [quietly persisted_store_property|].
      intros notes w1 Hw1. exact Hw1.
  - simpl in Hr.
    destruct (vault w1) as [v|] eqn:Hv; [|exact Hr].
    destruct (secrets v) as [l|]; [|exact Hr].
    destruct (Py.setitem l itemKey (set_field fieldName value)) as [l'|]; [|exact Hr].
    apply ends_in_bind; [|intros ?; cbv beta; quietly persisted_store_property].
    apply saveVault_persists; [exact (proj1 Hr)|].
    simpl. intros v0 ?. exact (persisted_key w1 v Hr Hv).
  - destruct e; exact Hr.
  - exact I.
  - exact I.
Qed.

Lemma addItemInput_persists :
  forall fuel : nat, preserves persisted (addItemInput categoryCheckId fuel).
Proof.
  induction fuel as [|fuel IH]; intros w Hw; [exact I|].
  cbn [addItemInput].
  change (vault (setAutoLockTimer w)) with (vault w).
  destruct (vault w) as [v|] eqn:Hv; [|exact Hw].
  match goal with
  | |- ends_in _ (match ?r with _ => _ end) =>
      assert (Hr : ends_in persisted r); [|destruct r as [[categoryId|] w1|e w1| |]]
  end.
  - destruct (truthy (categories v)); [|exact Hw].
    apply preserves_bind; [quietly persisted_store_property| |exact Hw].
    intros ?; cbv beta. apply preserves_bind; [quietly persisted_store_property|].
    intros [categoryId|] w1 Hw1; [|exact Hw1].
    destruct (negb (categoryId =? "") && negb (categoryCheckId (vault w1) categoryId));
      [|exact Hw1].
    apply preserves_bind; [quietly persisted_store_property| |exact Hw1].
    intros ?; cbv beta. apply preserves_bind; [apply IH|].
    intros ? w2 Hw2. exact Hw2.
  - simpl in Hr.
    match goal with
    | |- ends_in _ (match ?r with _ => _ end) =>
        assert (Ht : ends_in persisted r); [|destruct r as [[[[n l] p] notes] w2|e w2| |]]
    end.
    + apply preserves_bind; [quietly persisted_store_property| |exact Hr].
      intros n. apply preserves_bind; [quietly persisted_store_property|].
      intros l. apply preserves_bind; [quietly persisted_store_property|].
      intros ?; cbv beta. apply preserves_bind; [quietly persisted_store_property|].
      intros p. apply preserves_bind; [quietly persisted_store_property|].
      intros ?; cbv beta. apply preserves_bind; [quietly persisted_store_property|].
      intros notes w2 Hw2. exact Hw2.
    + apply preserves_bind; [apply addItem_persists| |exact Ht].
      intros ?; cbv beta. quietly persisted_store_property.
    + destruct e; exact Ht.
    + exact I.
    + exact I.
  - exact Hr.
  - exact Hr.
  - exact I.
  - exact I.
Qed.

End Persistence.

Lemma changeKey_persists : forall fuel : nat, preserves persisted (changeKey fuel).
Proof.
  induction fuel as [|fuel IH]; intros w Hw; [exact I|].
  cbn [changeKey].
  apply preserves_bind; [| |exact Hw].
  - intros w0 Hw0. destruct (vault w0); [exact Hw0|]. now apply unlock_persists.
  - intros ?; cbv beta. apply preserves_bind; [quietly persisted_store_property|].
    intros ?; cbv beta. apply preserves_bind; [quietly persisted_store_property|].
    intros newMasterKey. apply preserves_bind; [quietly persisted_store_property|].
    intros newMasterKeyRepeat.
    destruct (String.length newMasterKey <? 8)%nat.
    + apply preserves_bind; [quietly persisted_store_property|].
      intros ?; cbv beta. apply IH.
    + destruct (newMasterKey =? newMasterKeyRepeat).
      * intros w1 Hw1. unfold bind at 1.
        apply ends_in_bind.
        -- apply saveVault_persists; [exact (proj1 Hw1)|].
           simpl. intros v ?. now exists newMasterKey.
        -- intros ?; cbv beta. apply preserves_bind; [quietly persisted_store_property|].
           intros ?; cbv beta. apply unlock_persists.
      * apply preserves_bind; [quietly persisted_store_property|].
        intros ?; cbv beta. apply IH.
Qed.

Lemma changeKey_keeps_keys_long :
  forall fuel : nat, preserves keys_long_enough (changeKey fuel).
Proof.
  induction fuel as [|fuel IH]; intros w Hw; [exact I|].
  cbn [changeKey].
  apply preserves_bind; [| |exact Hw].
  - intros w0 Hw0. destruct (vault w0); [exact Hw0|]. now apply unlock_keeps_keys_long.
  - intros ?; cbv beta. apply preserves_bind; [quietly keys_store_property|].
    intros ?; cbv beta. apply preserves_bind; [quietly keys_store_property|].
    intros newMasterKey. apply preserves_bind; [quietly keys_store_property|].
    intros newMasterKeyRepeat.
    destruct (Nat.ltb_spec (String.length newMasterKey) 8) as [Hshort|Hlong].
    + apply preserves_bind; [quietly keys_store_property|].
      intros ?; cbv beta. apply IH.
    + destruct (newMasterKey =? newMasterKeyRepeat).
      * intros w1 [Hk Hd]. unfold bind at 1.
        apply ends_in_bind.
        -- apply saveVault_keeps_keys_long. split; simpl; [|exact Hd].
           intros k H. injection H as <-. exact Hlong.
        -- intros ?; cbv beta. apply preserves_bind; [quietly keys_store_property|].
           intros ?; cbv beta. apply unlock_keeps_keys_long.
      * apply preserves_bind; [quietly keys_store_property|].
        intros ?; cbv beta. apply IH.
Qed.

(** C4.  Starting from a session whose file holds exactly the vault in
    memory under the live key, and with no write of the file failing,
    each operation that changes the vault or the key (adding a secret,
    editing a field, deleting a secret, changing the master key, and the
    dialogue that adds a secret) ends, however it ends, with the file
    again holding exactly the vault in memory under the live key: no change
    stays in memory without the whole structure having been written after
    it.  For [addItem] the change and the file are spelled out. *)
Theorem mutations_are_saved :
  forall (categoryCheckId : option Vault -> string -> bool) (fuel : nat) (w : World),
    persisted w ->
    (forall categoryId name login password notes,
        ends_in persisted (addItem categoryId name login password notes w))
    /\ (forall itemKey fieldName current,
           ends_in persisted (editItemInput categoryCheckId fuel itemKey fieldName current w))
    /\ (forall itemKey, ends_in persisted (itemDelete itemKey w))
    /\ ends_in persisted (changeKey fuel w)
    /\ ends_in persisted (addItemInput categoryCheckId fuel w)
    /\ (forall v key categoryId name login password notes,
           vault w = Some v -> masterKey w = Some key ->
           exists w' present,
             addItem categoryId name login password notes w = Ret tt w'
             /\ present = match secrets v with Some (x :: l) => x :: l | _ => [] end
             /\ vault w'
                = Some (mkVault (categories v)
                                (Some (present
                                         ++ [mkSecret categoryId name login password notes])))
             /\ disk w'
                = Some (key,
                        mkVault (categories v)
                                (Some (present
                                         ++ [mkSecret categoryId name login password notes])))).
Proof.
  intros categoryCheckId fuel w Hw. repeat split.
  - intros. now apply addItem_persists.
  - intros. now apply editItemInput_persists.
  - intros. now apply itemDelete_persists.
  - now apply changeKey_persists.
  - now apply addItemInput_persists.
  - intros v key categoryId name login password notes Hv Hk.
    unfold addItem, saveVault. rewrite Hv. simpl. rewrite Hk.
    destruct Hw as [Hf _]. unfold writes_succeed in Hf.
    destruct (faults w) as [|[|] rest]; simpl.
    + eexists. eexists. repeat split.
    + inversion Hf; discriminate.
    + eexists. eexists. repeat split.
Qed.

Lemma mutations_are_saved_witness :
  persisted (sample_world [Typed "newmaster1"; Typed "newmaster1"; Typed "newmaster1"]
                          [true] [])
  /\ ends_in persisted
             (changeKey 2 (sample_world [Typed "newmaster1"; Typed "newmaster1";
                                         Typed "newmaster1"] [true] []))
  /\ ends_in persisted
             (itemDelete 1 (sample_world [Typed "newmaster1"; Typed "newmaster1";
                                          Typed "newmaster1"] [true] [])).
Proof.
  assert (H : persisted (sample_world [Typed "newmaster1"; Typed "newmaster1";
                                       Typed "newmaster1"] [true] [])).
  { split.
    - constructor.
    - exists "correcthorse". split; reflexivity. }
  split; [exact H|].
  pose proof (mutations_are_saved categoryCheckId_model 2 _ H) as (_ & _ & Hdel & Hkey & _).
  split; [exact Hkey|apply Hdel].
Defined.

(** ** Changing the master key *)

Lemma changeKey_step (fuel : nat) (w : World) (v : Vault) (first second : string)
      (rest : list Input) :
  vault w = Some v -> stdin w = Typed first :: Typed second :: rest ->
  changeKey (S fuel) w
  = (if (String.length first <? 8)%nat then
       say [Print "";
            Print "The master key should be at least 8 characters. Please try again!";
            Print ""] ;;;
       changeKey fuel
     else if first =? second then
       (fun w => Ret tt (set_masterKey (Some first) w)) ;;;
       saveVault ;;;
       say [Print ""; Print "Your master key has been updated."] ;;;
       unlock false
     else
       say [Print "";
            Print "The master key does not match its confirmation. Please try again!";
            Print ""] ;;;
       changeKey fuel) (set_stdin rest (emit [Print ""] w)).
Proof.
  intros Hv Hin. cbn [changeKey]. unfold bind at 1. rewrite Hv.
  unfold bind at 1. unfold say at 1. unfold bind at 1. unfold getpass at 1, input at 1.
  simpl stdin. rewrite Hin.
  unfold bind at 1. unfold getpass at 1, input at 1. simpl stdin.
  reflexivity.
Qed.

(** C7.  A new master key shorter than 8 characters is refused when the
    key is changed: the message is shown and the change starts over with
    the live key, the vault in memory and the file as they were; and over
    a whole run of [changeKey], neither the live key nor the key of the
    file ever becomes one shorter than 8 characters. *)
Theorem changeKey_rejects_short_key :
  forall (fuel : nat) (w : World) (v : Vault) (first second : string) (rest : list Input),
    vault w = Some v ->
    stdin w = Typed first :: Typed second :: rest ->
    (String.length first < 8)%nat ->
    (exists w',
        changeKey (S fuel) w = changeKey fuel w'
        /\ masterKey w' = masterKey w
        /\ vault w' = vault w
        /\ disk w' = disk w
        /\ stdin w' = rest
        /\ log w'
           = log w
               ++ [Print ""; Print "";
                   Print "The master key should be at least 8 characters. Please try again!";
                   Print ""])
    /\ (keys_long_enough w -> ends_in keys_long_enough (changeKey (S fuel) w)).
Proof.
  intros fuel w v first second rest Hv Hin Hshort. split.
  - rewrite (changeKey_step fuel w v first second rest Hv Hin).
    apply Nat.ltb_lt in Hshort. rewrite Hshort.
    eexists. split; [reflexivity|]. simpl. rewrite <- app_assoc. repeat split.
  - apply changeKey_keeps_keys_long.
Qed.

Lemma changeKey_rejects_short_key_witness :
  (String.length "short" < 8)%nat
  /\ (exists w',
         changeKey 1 (sample_world [Typed "short"; Typed "short"] [] []) = changeKey 0 w'
         /\ masterKey w' = masterKey (sample_world [Typed "short"; Typed "short"] [] [])
         /\ vault w' = vault (sample_world [Typed "short"; Typed "short"] [] [])
         /\ disk w' = disk (sample_world [Typed "short"; Typed "short"] [] [])
         /\ stdin w' = []
         /\ log w'
            = log (sample_world [Typed "short"; Typed "short"] [] [])
                ++ [Print ""; Print "";
                    Print "The master key should be at least 8 characters. Please try again!";
                    Print ""])
  /\ (keys_long_enough (sample_world [Typed "short"; Typed "short"] [] []) ->
      ends_in keys_long_enough
              (changeKey 1 (sample_world [Typed "short"; Typed "short"] [] []))).
Proof.
  split.
  - simpl. lia.
  - apply (changeKey_rejects_short_key 0 (sample_world [Typed "short"; Typed "short"] [] [])
                                       sample_vault "short" "short" []).
    + reflexivity.
    + reflexivity.
    + simpl. lia.
Defined.

(** C1, as the code has it.  With a new key of at least 8 characters,
    typed twice, [changeKey] first replaces the live key and then has the
    whole vault written under it.  When that write fails the call ends in
    [PersistenceError]: the file is still the old one, written under the
    old key, and the live key is already the new one.  When it succeeds the
    file holds the whole vault under the new key, and [unlock] follows. *)
Theorem changeKey_replaces_key_then_saves :
  forall (fuel : nat) (w : World) (v : Vault) (old new : string) (rest : list Input)
         (fails : bool) (more : list bool),
    vault w = Some v -> masterKey w = Some old -> disk w = Some (old, v) ->
    stdin w = Typed new :: Typed new :: rest ->
    (8 <= String.length new)%nat ->
    faults w = fails :: more ->
    if fails then
      exists w',
        changeKey (S fuel) w = Raise PersistenceError w'
        /\ masterKey w' = Some new
        /\ vault w' = Some v
        /\ disk w' = Some (old, v)
    else
      exists w',
        changeKey (S fuel) w = unlock false w'
        /\ masterKey w' = Some new
        /\ vault w' = Some v
        /\ disk w' = Some (new, v)
        /\ stdin w' = rest.
Proof.
  intros fuel w v old new rest fails more Hv Hk Hd Hin Hlen Hf.
  rewrite (changeKey_step fuel w v new new rest Hv Hin).
  apply Nat.ltb_ge in Hlen. rewrite Hlen, String.eqb_refl.
  unfold bind, say, saveVault. simpl. rewrite Hv, Hf.
  destruct fails; simpl; eexists; (split; [reflexivity|]); simpl; repeat split; trivial.
Qed.

Lemma changeKey_replaces_key_then_saves_witness :
  (8 <= String.length "newmaster1")%nat
  /\ (exists w',
         changeKey 1 (sample_world [Typed "newmaster1"; Typed "newmaster1"] [] [true])
         = Raise PersistenceError w'
         /\ masterKey w' = Some "newmaster1"
         /\ vault w' = Some sample_vault
         /\ disk w' = Some ("correcthorse", sample_vault))
  /\ (exists w',
         changeKey 1 (sample_world [Typed "newmaster1"; Typed "newmaster1"] [] [false])
         = unlock false w'
         /\ masterKey w' = Some "newmaster1"
         /\ vault w' = Some sample_vault
         /\ disk w' = Some ("newmaster1", sample_vault)
         /\ stdin w' = []).
Proof.
  split; [simpl; lia|]. split.
  - apply (changeKey_replaces_key_then_saves
             0 (sample_world [Typed "newmaster1"; Typed "newmaster1"] [] [true])
             sample_vault "correcthorse" "newmaster1" [] true []);
      try reflexivity.
    simpl. lia.
  - apply (changeKey_replaces_key_then_saves
             0 (sample_world [Typed "newmaster1"; Typed "newmaster1"] [] [false])
             sample_vault "correcthorse" "newmaster1" [] false []);
      try reflexivity.
    simpl. lia.
Defined.

(** C1 as stated fails: the write of the re-encrypted vault fails, nothing
    has been written under the new key, the file is the one written under
    [correcthorse], and yet the old key is gone from the session, which
    already holds [newmaster1]. *)
Lemma changeKey_discards_old_key_counterexample :
  exists w',
    changeKey 1 (sample_world [Typed "newmaster1"; Typed "newmaster1"] [] [true])
    = Raise PersistenceError w'
    /\ disk w' = Some ("correcthorse", sample_vault)
    /\ masterKey w' = Some "newmaster1"
    /\ masterKey w' <> masterKey (sample_world [Typed "newmaster1"; Typed "newmaster1"]
                                               [] [true]).
Proof.
  eexists. split; [reflexivity|]. simpl. repeat split. discriminate.
Qed.

(** ** Category references *)

(** C3, where the code departs from it.  On the sample vault no category
    has the number 99.  In the dialogue that adds a secret the user types
    99, is told that the category is invalid, leaves the retry with
    Ctrl-C, and is then asked for the name, login, password and notes all
    the same: the secret is stored with category 99.  In the dialogue that
    edits the category of the second secret the user types 99, is told
    that it is invalid, types the valid 0 at the retry, which is stored,
    and then the first answer is stored over it: the secret ends with
    category 99. *)
Theorem invalid_category_is_stored :
  categoryCheckId_model (Some sample_vault) "99" = false
  /\ (exists w',
         addItemInput categoryCheckId_model 2
                      (sample_world [Typed "99"; CtrlC;
                                     Typed "x"; Typed "y"; Typed "pw"; Typed ""] [] [])
         = Ret tt w'
         /\ vault w'
            = Some (mkVault (categories sample_vault)
                            (Some [bank; mail; shop; mkSecret "99" "x" "y" "pw" ""]))
         /\ disk w'
            = Some ("correcthorse",
                    mkVault (categories sample_vault)
                            (Some [bank; mail; shop; mkSecret "99" "x" "y" "pw" ""]))
         /\ log w'
            = [Print ""; Print "* Available categories:"; CategoriesList; Print "";
               Print "Invalid category. Please try again.";
               Print ""; Print "* Available categories:"; CategoriesList; Print "";
               Print "";
               Suggestion "* Password suggestion: ";
               Print "* Notes: (press [ENTER] twice to complete)";
               Print ""; Print "The new item has been saved to your vault."; Print ""])
  /\ (exists w',
         editItemInput categoryCheckId_model 2 1 F_category "Post"
                       (sample_world [Typed "99"; Typed "0"] [] [])
         = Ret tt w'
         /\ vault w'
            = Some (mkVault (categories sample_vault)
                            (Some [bank; set_field F_category "99" mail; shop]))
         /\ log w'
            = [Print "* Current value: Post"; Print "";
               Print "* Available categories:"; CategoriesList; Print "";
               Print "Invalid category. Please try again.";
               Print "* Current value: Post"; Print "";
               Print "* Available categories:"; CategoriesList; Print "";
               Print "The item has been updated.";
               Print "The item has been updated."]).
Proof.
  split; [vm_compute; reflexivity|]. split.
  - eexists. split; [vm_compute; reflexivity|].
    split; [vm_compute; reflexivity|]. split; vm_compute; reflexivity.
  - eexists. split; [vm_compute; reflexivity|].
    split; vm_compute; reflexivity.
Qed.

(** * Further properties *)

(** ** What every dialogue keeps *)

Lemma quiet_sleep (seconds : N) : quiet (sleep seconds).
Proof. intros w. unfold sleep. destruct (interrupts w) as [|[|] rest]; reflexivity. Qed.

Lemma quiet_itemShowSecret (secret : string) : quiet (itemShowSecret secret).
Proof.
  intros w. unfold itemShowSecret, bind, say, sleep. simpl.
  destruct (interrupts w) as [|[|] rest]; reflexivity.
Qed.

Lemma quiet_itemCopyToClipboard (item name : string) : quiet (itemCopyToClipboard item name).
Proof. intros w. reflexivity. Qed.

Lemma quiet_show_item (categoryName : option Vault -> string -> string)
      (item : SecretItem) (w : World) :
  store_of (show_item categoryName item w) = store_of w.
Proof. unfold show_item. destruct (notes item =? ""); reflexivity. Qed.

Section Flows.

Variable categoryCheckId : option Vault -> string -> bool.
Variable categoryName : option Vault -> string -> string.

(** A property of the store that a lock keeps, and that holds again once a
    changed list of secrets has gone through [saveVault]. *)
Variable P : World -> Prop.
Hypothesis P_store : store_property P.
Hypothesis P_lock : forall w, P w -> P (lock w).
Hypothesis P_change :
  forall w v l,
    vault w = Some v -> P w ->
    ends_in P (saveVault (set_vault (Some (mkVault (categories v) (Some l))) w)).

Lemma checkThenSetAutoLockTimer_keeps (w : World) :
  P w -> P (checkThenSetAutoLockTimer w).
Proof using P_store P_lock.
  intros H. unfold checkThenSetAutoLockTimer.
  destruct (idle w) as [|[|] rest].
  - now apply (P_store w).
  - apply (P_store (lock (set_idle rest w))); [reflexivity|].
    apply P_lock. now apply (P_store w).
  - now apply (P_store w).
Qed.

Lemma addItem_keeps (categoryId name login password notes : string) :
  preserves P (addItem categoryId name login password notes).
Proof using P_change.
  intros w Hw. unfold addItem.
  destruct (vault w) as [v|] eqn:Hv; [|exact Hw].
  now apply P_change.
Qed.

Lemma itemDelete_keeps (itemKey : Z) : preserves P (itemDelete itemKey).
Proof using P_store P_change.
  intros w Hw. unfold itemDelete.
  apply except_Exception_ends_in;
    [|intros e; apply quiet_preserves; [exact P_store|apply quiet_say]].
  destruct (vault w) as [v|] eqn:Hv; [|exact Hw].
  destruct (secrets v) as [l|]; [|exact Hw].
  destruct (Py.getitem l itemKey); [|exact Hw].
  unfold bind, say, confirm. simpl.
  destruct (confirms w) as [|[|] more]; simpl; trivial.
  - destruct (Py.pop l itemKey) as [[x l']|].
    + apply P_change; [exact Hv|]. now apply (P_store w).
    + simpl. now apply (P_store w).
  - now apply (P_store w).
Qed.

Lemma editItemInput_keeps :
  forall (fuel : nat) (itemKey : Z) (fieldName : Field) (current : string),
    preserves P (editItemInput categoryCheckId fuel itemKey fieldName current).
Proof using P_store P_change.
  induction fuel as [|fuel IH]; intros itemKey fieldName current w Hw; [exact I|].
  cbn [editItemInput].
  assert (Hw0 : P (setAutoLockTimer w)) by now apply (P_store w).
  assert (Hw1 : P (emit [Print ("* Current value: " ++ current)%string]
                        (setAutoLockTimer w))) by now apply (P_store w).
  match goal with
  | |- ends_in _ (match ?r with _ => _ end) =>
      assert (Hr : ends_in P r); [|destruct r as [value w1|e w1| |]]
  end.
  - destruct fieldName.
    + apply preserves_bind; [quietly P_store| |exact Hw1].
      intros ?; cbv beta. apply preserves_bind; [quietly P_store|].
      intros value w1 Hv1.
      destruct (negb (value =? "") && negb (categoryCheckId (vault w1) value));
        [|exact Hv1].
      apply preserves_bind; [quietly P_store| |exact Hv1].
      intros ?; cbv beta. apply preserves_bind; [apply IH|].
      intros ? w2 Hw2. exact Hw2.
    + apply (quiet_preserves P input P_store quiet_input). exact Hw1.
    + apply (quiet_preserves P input P_store quiet_input). exact Hw1.
    + apply preserves_bind; [quietly P_store| |exact Hw0].
      intros ?; cbv beta. quietly P_store.
    + apply preserves_bind; [quietly P_store| |exact Hw1].
      intros ?; cbv beta. apply preserves_bind; [quietly P_store|].
      intros notes w1 Hv1. exact Hv1.
  - simpl in Hr.
    destruct (vault w1) as [v|] eqn:Hv; [|exact Hr].
    destruct (secrets v) as [l|]; [|exact Hr].
    destruct (Py.setitem l itemKey (set_field fieldName value)) as [l'|]; [|exact Hr].
    apply ends_in_bind; [|intros ?; cbv beta; quietly P_store].
    now apply P_change.
  - destruct e; try exact Hr. simpl. now apply (P_store w1).
  - exact I.
  - exact I.
Qed.

Lemma prompt_keeps : preserves P prompt.
Proof using P_store. quietly P_store. Qed.

Lemma itemEdit_keeps :
  forall (fuel : nat) (itemKey : Z) (item : SecretItem),
    preserves P (itemEdit categoryCheckId categoryName fuel itemKey item).
Proof using P_store P_lock P_change.
  induction fuel as [|fuel IH]; intros itemKey item w Hw; [exact I|].
  cbn [itemEdit].
  assert (Hw0 : P (emit [Print ""] (checkThenSetAutoLockTimer w))).
  { apply (P_store (checkThenSetAutoLockTimer w)); [reflexivity|].
    now apply checkThenSetAutoLockTimer_keeps. }
  pose proof (prompt_keeps _ Hw0) as Hp.
  destruct (prompt (emit [Print ""] (checkThenSetAutoLockTimer w)))
    as [[typed|] w1|e w1| |]; simpl in Hp; trivial.
  repeat match goal with
         | |- ends_in _ (if ?c then _ else _) => destruct c
         end;
    try (now apply editItemInput_keeps); trivial.
  now apply IH.
Qed.

Lemma itemMenu_keeps :
  forall (fuel : nat) (itemKey : Z) (item : SecretItem),
    preserves P (itemMenu categoryCheckId categoryName fuel itemKey item).
Proof using P_store P_lock P_change.
  induction fuel as [|fuel IH]; intros itemKey item w Hw; [exact I|].
  cbn [itemMenu].
  assert (Hw0 : P (emit [Print ""] (checkThenSetAutoLockTimer w))).
  { apply (P_store (checkThenSetAutoLockTimer w)); [reflexivity|].
    now apply checkThenSetAutoLockTimer_keeps. }
  pose proof (prompt_keeps _ Hw0) as Hp.
  destruct (prompt (emit [Print ""] (checkThenSetAutoLockTimer w)))
    as [[typed|] w1|e w1| |]; simpl in Hp; trivial.
  repeat match goal with
         | |- ends_in _ (if ?c then _ else _) => destruct c
         end; trivial.
  - apply preserves_bind; [|intros ?; apply IH|exact Hp].
    apply quiet_preserves; [exact P_store|apply quiet_itemCopyToClipboard].
  - apply preserves_bind; [|intros ?; apply IH|exact Hp].
    apply quiet_preserves; [exact P_store|apply quiet_itemCopyToClipboard].
  - apply preserves_bind; [|intros ?; apply IH|exact Hp].
    apply quiet_preserves; [exact P_store|apply quiet_itemShowSecret].
  - apply preserves_bind; [apply itemEdit_keeps| |exact Hp].
    intros ? w2 Hw2. exact Hw2.
  - apply preserves_bind; [apply itemDelete_keeps| |exact Hp].
    intros ? w2 Hw2. exact Hw2.
  - now apply IH.
Qed.

Lemma item_does_not_exist_keeps (e : Exn) : preserves P (item_does_not_exist e).
Proof using P_store.
  unfold item_does_not_exist. apply preserves_bind; [quietly P_store|].
  intros ? w Hw. exact Hw.
Qed.

Lemma get_keeps (fuel : nat) (id : Z) :
  preserves P (get categoryCheckId categoryName fuel id).
Proof using P_store P_lock P_change.
  intros w Hw. unfold get.
  apply except_Exception_ends_in; [|apply item_does_not_exist_keeps].
  assert (Hw0 : P (setAutoLockTimer w)) by now apply (P_store w).
  change (vault (setAutoLockTimer w)) with (vault w).
  destruct (vault w) as [v|]; [|exact Hw0].
  destruct (secrets v) as [l|]; [|exact Hw0].
  destruct (Py.getitem l id) as [item|]; [|exact Hw0].
  apply itemMenu_keeps.
  apply (P_store (setAutoLockTimer w)); [apply quiet_show_item|exact Hw0].
Qed.

Lemma searchResultSelection_keeps (fuel : nat) (numbers : list (Z * Z)) :
  preserves P (searchResultSelection categoryCheckId categoryName fuel numbers).
Proof using P_store P_lock P_change.
  intros w Hw. unfold searchResultSelection.
  assert (Hw0 : P (emit [Print ""] (setAutoLockTimer w))) by now apply (P_store w).
  pose proof (prompt_keeps _ Hw0) as Hp.
  destruct (prompt (emit [Print ""] (setAutoLockTimer w)))
    as [[typed|] w1|e w1| |]; simpl in Hp; trivial.
  apply except_Exception_ends_in.
  - destruct (Py.int_of_str typed) as [n|]; [|exact Hp].
    destruct (dict_get numbers n) as [id|]; [|exact Hp].
    now apply get_keeps.
  - intros e. apply preserves_bind; [quietly P_store|].
    intros ? w2 Hw2. exact Hw2.
Qed.

Lemma search_items_keeps (fuel : nat) (query : string) :
  preserves P (search_items categoryCheckId categoryName fuel query).
Proof using P_store P_lock P_change.
  intros w Hw. unfold search_items.
  destruct (vault w) as [v|]; [|exact Hw].
  destruct (secrets v) as [l|]; [|exact Hw].
  destruct (search_loop categoryName (Some v) query (Py.enumerate l) [] [] 0)
    as [results numbers].
  destruct (length results =? 1)%nat.
  - destruct (dict_get numbers 1) as [id|]; [|exact Hw]. now apply get_keeps.
  - destruct (1 <? length results)%nat.
    + apply preserves_bind; [quietly P_store| |exact Hw].
      intros ?. apply searchResultSelection_keeps.
    + simpl. now apply (P_store w).
Qed.

Lemma search_keeps (fuel : nat) : preserves P (search categoryCheckId categoryName fuel).
Proof using P_store P_lock P_change.
  intros w Hw. unfold search. cbv zeta.
  assert (Hw0 : P (emit [Print ""] (setAutoLockTimer w))) by now apply (P_store w).
  pose proof (prompt_keeps _ Hw0) as Hp.
  destruct (prompt (emit [Print ""] (setAutoLockTimer w)))
    as [[query|] w1|e w1| |]; simpl in Hp; trivial.
  destruct (query =? ""); [simpl; now apply (P_store w1)|].
  destruct (existsb (String.eqb query) ["s"; "a"; "l"; "q"]); [exact Hp|].
  destruct (query =? "b"); [exact Hp|].
  destruct (vault w1) as [v|]; [|exact Hp].
  destruct (truthy (secrets v)); [|simpl; now apply (P_store w1)].
  match goal with
  | |- ends_in _ (match ?r with _ => _ end) =>
      assert (Hr : ends_in P r); [|destruct r as [[found|] w2|e w2| |]]; trivial
  end.
  - destruct (Py.isdigit query); [|exact Hp].
    destruct (Py.int_of_str query) as [n|]; [|exact Hp].
    destruct (Py.getitem match secrets v with Some l => l | None => [] end n);
      [|exact Hp].
    pose proof (get_keeps fuel n w1 Hp) as Hg.
    destruct (get categoryCheckId categoryName fuel n w1) as [r w2|e w2| |]; trivial.
    destruct e; exact Hg.
  - now apply search_items_keeps.
Qed.

Lemma addItemInput_keeps :
  forall fuel : nat, preserves P (addItemInput categoryCheckId fuel).
Proof using P_store P_change.
  induction fuel as [|fuel IH]; intros w Hw; [exact I|].
  cbn [addItemInput].
  assert (Hw0 : P (setAutoLockTimer w)) by now apply (P_store w).
  change (vault (setAutoLockTimer w)) with (vault w).
  destruct (vault w) as [v|] eqn:Hv; [|exact Hw0].
  match goal with
  | |- ends_in _ (match ?r with _ => _ end) =>
      assert (Hr : ends_in P r); [|destruct r as [[categoryId|] w1|e w1| |]]; trivial
  end.
  - destruct (truthy (categories v)); [|simpl; now apply (P_store w)].
    apply preserves_bind; [quietly P_store| |exact Hw0].
    intros ?; cbv beta. apply preserves_bind; [quietly P_store|].
    intros [categoryId|] w1 Hw1; [|exact Hw1].
    destruct (negb (categoryId =? "") && negb (categoryCheckId (vault w1) categoryId));
      [|exact Hw1].
    apply preserves_bind; [quietly P_store| |exact Hw1].
    intros ?; cbv beta. apply preserves_bind; [apply IH|].
    intros ? w2 Hw2. exact Hw2.
  - simpl in Hr.
    match goal with
    | |- ends_in _ (match ?r with _ => _ end) =>
        assert (Ht : ends_in P r); [|destruct r as [[[[n l] p] notes] w2|e w2| |]]; trivial
    end.
    + apply preserves_bind; [quietly P_store| |exact Hr].
      intros n. apply preserves_bind; [quietly P_store|].
      intros l. apply preserves_bind; [quietly P_store|].
      intros ?; cbv beta. apply preserves_bind; [quietly P_store|].
      intros p. apply preserves_bind; [quietly P_store|].
      intros ?; cbv beta. apply preserves_bind; [quietly P_store|].
      intros notes w2 Hw2. exact Hw2.
    + apply preserves_bind; [apply addItem_keeps| |exact Ht].
      intros ?; cbv beta. quietly P_store.
    + destruct e; exact Ht.
Qed.

End Flows.

Lemma persisted_lock (w : World) : persisted w -> persisted (lock w).
Proof. intros [Hw _]. split; [exact Hw|exact I]. Qed.

Lemma persisted_change (w : World) (v : Vault) (l : list SecretItem) :
  vault w = Some v -> persisted w ->
  ends_in persisted (saveVault (set_vault (Some (mkVault (categories v) (Some l))) w)).
Proof.
  intros Hv Hw. apply saveVault_persists; [exact (proj1 Hw)|].
  simpl. intros v0 ?. exact (persisted_key w v Hw Hv).
Qed.

Lemma saveVault_keeps_memory (w : World) :
  ends_in (fun w' => vault w' = vault w /\ masterKey w' = masterKey w) (saveVault w).
Proof.
  unfold saveVault.
  destruct (vault w) as [v|] eqn:Hv; [|simpl; now split].
  destruct (masterKey w) as [k|] eqn:Hk; [|simpl; now split].
  destruct (faults w) as [|[|] rest]; simpl; now split.
Qed.

Lemma kept_from_refl (w : World) : kept_from w w.
Proof.
  repeat split.
  - intros v0 v H0 H. congruence.
  - trivial.
  - now left.
Qed.

Lemma kept_from_store (w0 : World) : store_property (kept_from w0).
Proof.
  intros w w' H (Hc & Hl & Hk). unfold store_of in H. injection H as Hv Hkey _ _.
  unfold kept_from. rewrite Hv, Hkey. exact (conj Hc (conj Hl Hk)).
Qed.

Lemma kept_from_lock (w0 w : World) : kept_from w0 w -> kept_from w0 (lock w).
Proof.
  intros _. repeat split.
  - intros v0 v _ H. discriminate H.
  - now right.
Qed.

Lemma kept_from_change (w0 w : World) (v : Vault) (l : list SecretItem) :
  vault w = Some v -> kept_from w0 w ->
  ends_in (kept_from w0)
          (saveVault (set_vault (Some (mkVault (categories v) (Some l))) w)).
Proof.
  intros Hv (Hc & Hl & Hk).
  pose proof (saveVault_keeps_memory
                (set_vault (Some (mkVault (categories v) (Some l))) w)) as Hs.
  assert (Hgoal : forall w', vault w' = Some (mkVault (categories v) (Some l))
                             /\ masterKey w' = masterKey w -> kept_from w0 w').
  { intros w' [Hv' Hk']. repeat split.
    - intros v0 v' H0 H. rewrite Hv' in H. injection H as <-. simpl.
      now apply (Hc v0 v).
    - intros H0. rewrite (Hl H0) in Hv. discriminate.
    - now rewrite Hk'. }
  destruct (saveVault (set_vault (Some (mkVault (categories v) (Some l))) w))
    as [a w'|e w'| |]; simpl in *; trivial; now apply Hgoal.
Qed.

(** X1.  No dialogue on the secrets touches the categories or the master
    key: whatever the user types and however the call ends, after adding,
    editing or deleting a secret, after the item menus, after [get] and
    after [search], the categories of the vault are those it started with,
    a locked vault is still locked, and the master key is the one it
    started with, unless an idle lock has discarded it. *)
Theorem dialogues_keep_categories_and_key :
  forall (categoryCheckId : option Vault -> string -> bool)
         (categoryName : option Vault -> string -> string)
         (fuel : nat) (w : World),
    (forall categoryId name login password notes,
        ends_in (kept_from w) (addItem categoryId name login password notes w))
    /\ ends_in (kept_from w) (addItemInput categoryCheckId fuel w)
    /\ (forall itemKey fieldName current,
           ends_in (kept_from w)
                   (editItemInput categoryCheckId fuel itemKey fieldName current w))
    /\ (forall itemKey, ends_in (kept_from w) (itemDelete itemKey w))
    /\ (forall itemKey item,
           ends_in (kept_from w)
                   (itemEdit categoryCheckId categoryName fuel itemKey item w))
    /\ (forall itemKey item,
           ends_in (kept_from w)
                   (itemMenu categoryCheckId categoryName fuel itemKey item w))
    /\ (forall id, ends_in (kept_from w) (get categoryCheckId categoryName fuel id w))
    /\ (forall numbers,
           ends_in (kept_from w)
                   (searchResultSelection categoryCheckId categoryName fuel numbers w))
    /\ ends_in (kept_from w) (search categoryCheckId categoryName fuel w).
Proof.
  intros categoryCheckId categoryName fuel w.
  pose proof (kept_from_refl w) as H0.
  pose proof (kept_from_store w) as Hs.
  pose proof (kept_from_lock w) as Hl.
  pose proof (kept_from_change w) as Hc.
  repeat split; intros.
  - now apply addItem_keeps.
  - now apply addItemInput_keeps.
  - now apply editItemInput_keeps.
  - now apply itemDelete_keeps.
  - now apply itemEdit_keeps.
  - now apply itemMenu_keeps.
  - now apply get_keeps.
  - now apply searchResultSelection_keeps.
  - now apply search_keeps.
Qed.

(** X2.  The menus keep the file in step with the memory.  From a session
    whose file holds exactly the vault in memory under the live key, and
    with no write of the file failing, [get], the item menu, the edit
    menu, the choice among search results and [search] end, whatever the
    user does in them, with the file again holding exactly the vault in
    memory under the live key, or with the vault locked. *)
Theorem menus_keep_file_in_step :
  forall (categoryCheckId : option Vault -> string -> bool)
         (categoryName : option Vault -> string -> string)
         (fuel : nat) (w : World),
    persisted w ->
    (forall id, ends_in persisted (get categoryCheckId categoryName fuel id w))
    /\ (forall itemKey item,
           ends_in persisted (itemMenu categoryCheckId categoryName fuel itemKey item w))
    /\ (forall itemKey item,
           ends_in persisted (itemEdit categoryCheckId categoryName fuel itemKey item w))
    /\ (forall numbers,
           ends_in persisted
                   (searchResultSelection categoryCheckId categoryName fuel numbers w))
    /\ ends_in persisted (search categoryCheckId categoryName fuel w).
Proof.
  intros categoryCheckId categoryName fuel w Hw.
  pose proof persisted_store_property as Hs.
  pose proof persisted_lock as Hl.
  pose proof persisted_change as Hc.
  repeat split; intros.
  - now apply get_keeps.
  - now apply itemMenu_keeps.
  - now apply itemEdit_keeps.
  - now apply searchResultSelection_keeps.
  - now apply search_keeps.
Qed.

(** X2 at work: the user searches for [shop], which opens the only secret
    found, deletes it and confirms. *)
Lemma menus_keep_file_in_step_witness :
  persisted (sample_world [Typed "shop"; Typed "d"] [true] [])
  /\ ends_in persisted
             (search categoryCheckId_model categoryName_model 3
                     (sample_world [Typed "shop"; Typed "d"] [true] [])).
Proof.
  assert (H : persisted (sample_world [Typed "shop"; Typed "d"] [true] [])).
  { split.
    - constructor.
    - exists "correcthorse". split; reflexivity. }
  split; [exact H|].
  exact (proj2 (proj2 (proj2 (proj2
           (menus_keep_file_in_step categoryCheckId_model categoryName_model 3 _ H))))).
Defined.

(** ** What the menus hand back *)

Lemma hands_back_bind {A : Type} (allowed : list string) (m : M A)
      (k : A -> M (option string)) (w : World) :
  (forall a w', hands_back allowed (k a w')) -> hands_back allowed (bind m k w).
Proof. intros H. unfold bind. destruct (m w); simpl; trivial. Qed.

Lemma hands_back_except (allowed : list string) (handler : Exn -> M (option string))
      (r : Res (option string)) :
  hands_back allowed r -> (forall e w, hands_back allowed (handler e w)) ->
  hands_back allowed (except_Exception handler r).
Proof.
  intros Hr Hh. destruct r as [a w|e w| |]; simpl in *; trivial.
  destruct (is_Exception e); [apply Hh|exact I].
Qed.

Lemma hands_back_more (a b : list string) (r : Res (option string)) :
  incl a b -> hands_back a r -> hands_back b r.
Proof. intros Hi. destruct r as [[c|] w|e w| |]; simpl; trivial. apply Hi. Qed.

Section Answers.

Variable categoryCheckId : option Vault -> string -> bool.
Variable categoryName : option Vault -> string -> string.

Lemma itemMenu_hands_back :
  forall (fuel : nat) (itemKey : Z) (item : SecretItem) (w : World),
    hands_back ["s"; "b"; "q"] (itemMenu categoryCheckId categoryName fuel itemKey item w).
Proof.
  induction fuel as [|fuel IH]; intros itemKey item w; [exact I|].
  cbn [itemMenu].
  destruct (prompt (emit [Print ""] (checkThenSetAutoLockTimer w)))
    as [[typed|] w1|e w1| |]; try exact I. cbv zeta.
  destruct (Py.lower typed =? "l"); [apply hands_back_bind; intros; apply IH|].
  destruct (Py.lower typed =? "p"); [apply hands_back_bind; intros; apply IH|].
  destruct (Py.lower typed =? "o"); [apply hands_back_bind; intros; apply IH|].
  destruct (Py.lower typed =? "e"); [apply hands_back_bind; intros; exact I|].
  destruct (Py.lower typed =? "d"); [apply hands_back_bind; intros; exact I|].
  destruct (existsb (String.eqb (Py.lower typed)) ["s"; "b"; "q"]) eqn:He; [|apply IH].
  apply existsb_exists in He. destruct He as (c & Hc & He).
  apply String.eqb_eq in He. simpl. now rewrite He.
Qed.

Lemma get_hands_back (fuel : nat) (id : Z) (w : World) :
  hands_back ["s"; "b"; "q"] (get categoryCheckId categoryName fuel id w).
Proof.
  unfold get. apply hands_back_except; [|intros e w'; exact I].
  destruct (vault (setAutoLockTimer w)) as [v|]; [|exact I].
  destruct (secrets v) as [l|]; [|exact I].
  destruct (Py.getitem l id) as [item|]; [|exact I].
  apply itemMenu_hands_back.
Qed.

Lemma searchResultSelection_hands_back (fuel : nat) (numbers : list (Z * Z)) (w : World) :
  hands_back ["s"; "b"; "q"]
             (searchResultSelection categoryCheckId categoryName fuel numbers w).
Proof.
  unfold searchResultSelection.
  destruct (prompt (emit [Print ""] (setAutoLockTimer w)))
    as [[typed|] w1|e w1| |]; try exact I.
  apply hands_back_except; [|intros e w'; exact I].
  destruct (Py.int_of_str typed) as [n|]; [|exact I].
  destruct (dict_get numbers n) as [id|]; [|exact I].
  apply get_hands_back.
Qed.

Lemma search_items_hands_back (fuel : nat) (query : string) (w : World) :
  hands_back ["s"; "b"; "q"] (search_items categoryCheckId categoryName fuel query w).
Proof.
  unfold search_items.
  destruct (vault w) as [v|]; [|exact I].
  destruct (secrets v) as [l|]; [|exact I].
  destruct (search_loop categoryName (Some v) query (Py.enumerate l) [] [] 0)
    as [results numbers].
  destruct (length results =? 1)%nat.
  - destruct (dict_get numbers 1) as [id|]; [|exact I]. apply get_hands_back.
  - destruct (1 <? length results)%nat; [|exact I].
    apply hands_back_bind. intros. apply searchResultSelection_hands_back.
Qed.

(** X3.  The menus hand back nothing or a command of the main menu:
    whatever the user types, the item menu, [get] and the choice among
    search results return [None] or one of [s], [b], [q], and [search]
    returns [None] or one of [s], [a], [l], [q], [b]; never any other
    text, and never a secret. *)
Theorem menus_hand_back_commands :
  forall (fuel : nat) (w : World),
    (forall itemKey item,
        hands_back ["s"; "b"; "q"]
                   (itemMenu categoryCheckId categoryName fuel itemKey item w))
    /\ (forall id,
           hands_back ["s"; "b"; "q"] (get categoryCheckId categoryName fuel id w))
    /\ (forall numbers,
           hands_back ["s"; "b"; "q"]
                      (searchResultSelection categoryCheckId categoryName fuel numbers w))
    /\ hands_back ["s"; "a"; "l"; "q"; "b"] (search categoryCheckId categoryName fuel w).
Proof.
  intros fuel w. repeat split; intros.
  - apply itemMenu_hands_back.
  - apply get_hands_back.
  - apply searchResultSelection_hands_back.
  - assert (Hincl : incl ["s"; "b"; "q"] ["s"; "a"; "l"; "q"; "b"]).
    { intros c Hc. simpl in *. clear - Hc. tauto. }
    unfold search. cbv zeta.
    destruct (prompt (emit [Print ""] (setAutoLockTimer w)))
      as [[query|] w1|e w1| |]; try exact I.
    destruct (query =? ""); [exact I|].
    destruct (existsb (String.eqb query) ["s"; "a"; "l"; "q"]) eqn:He.
    { apply existsb_exists in He. destruct He as (c & Hc & He).
      apply String.eqb_eq in He. simpl in *. rewrite He. clear - Hc. tauto. }
    destruct (query =? "b"); [exact I|].
    destruct (vault w1) as [v|]; [|exact I].
    destruct (truthy (secrets v)); [|exact I].
    destruct (Py.isdigit query).
    + destruct (Py.int_of_str query) as [n|]; [|exact I].
      destruct (Py.getitem match secrets v with Some l => l | None => [] end n).
      * pose proof (get_hands_back fuel n w1) as Hg.
        destruct (get categoryCheckId categoryName fuel n w1) as [r w2|e w2| |];
          [apply (hands_back_more _ _ _ Hincl Hg)| |exact I|exact I].
        destruct e; try exact I.
        apply (hands_back_more _ _ _ Hincl), search_items_hands_back.
      * apply (hands_back_more _ _ _ Hincl), search_items_hands_back.
    + apply (hands_back_more _ _ _ Hincl), search_items_hands_back.
Qed.

End Answers.

(** ** Adding and deleting, at the edges *)

Lemma present_secrets (v : Vault) :
  match secrets v with Some (x :: l) => x :: l | _ => [] end = stored_secrets v.
Proof. unfold stored_secrets. destruct (secrets v) as [[|x l]|]; reflexivity. Qed.

Lemma saveVault_ended (w : World) :
  exists w', ended (saveVault w) w' /\ vault w' = vault w /\ masterKey w' = masterKey w.
Proof.
  unfold saveVault, ended.
  destruct (vault w) as [v|] eqn:Hv;
    [destruct (masterKey w) as [k|] eqn:Hk; [destruct (faults w) as [|[|] rest]|]|];
    eexists; (split; [first [left; eexists; reflexivity|right; eexists; reflexivity]|]);
    simpl; now split.
Qed.

Lemma getitem_app_old {A : Type} (l : list A) (x : A) (j : Z) :
  (0 <= j < Z.of_nat (length l))%Z -> Py.getitem (l ++ [x]) j = Py.getitem l j.
Proof.
  intros H. rewrite !getitem_nonneg; [|lia|rewrite length_app; simpl; lia].
  apply nth_error_app1. lia.
Qed.

Lemma getitem_app_new {A : Type} (l : list A) (x : A) :
  Py.getitem (l ++ [x]) (Z.of_nat (length l)) = Some x
  /\ Py.getitem (l ++ [x]) (- (1)) = Some x.
Proof.
  split.
  - rewrite getitem_nonneg by (rewrite length_app; simpl; lia).
    rewrite Nat2Z.id, nth_error_app2, Nat.sub_diag by lia. reflexivity.
  - rewrite getitem_negative by (rewrite length_app; simpl; lia).
    rewrite length_app. simpl.
    replace (length l + 1 - Pos.to_nat 1)%nat with (length l) by lia.
    rewrite nth_error_app2, Nat.sub_diag by lia. reflexivity.
Qed.

(** X4.  [addItem] appends.  On an unlocked vault, whether the save that
    follows succeeds or raises, the vault in memory afterwards holds the
    secrets it held, the key ['secrets'] being created when absent, with
    the new secret after them: the new secret is at the index that was the
    length, which is also index -1, and every secret that was there is at
    the index it had. *)
Theorem addItem_appends :
  forall (categoryId name login password notes : string) (w : World) (v : Vault),
    vault w = Some v ->
    exists w',
      ended (addItem categoryId name login password notes w) w'
      /\ vault w'
         = Some (mkVault (categories v)
                         (Some (stored_secrets v
                                  ++ [mkSecret categoryId name login password notes])))
      /\ Py.getitem (stored_secrets v ++ [mkSecret categoryId name login password notes])
                    (Z.of_nat (length (stored_secrets v)))
         = Some (mkSecret categoryId name login password notes)
      /\ Py.getitem (stored_secrets v ++ [mkSecret categoryId name login password notes])
                    (- (1))
         = Some (mkSecret categoryId name login password notes)
      /\ (forall j,
             (0 <= j < Z.of_nat (length (stored_secrets v)))%Z ->
             Py.getitem (stored_secrets v
                           ++ [mkSecret categoryId name login password notes]) j
             = Py.getitem (stored_secrets v) j).
Proof.
  intros categoryId name login password notes w v Hv.
  unfold addItem. rewrite Hv, present_secrets.
  destruct (saveVault_ended
              (set_vault (Some (mkVault (categories v)
                                        (Some (stored_secrets v
                                                 ++ [mkSecret categoryId name login
                                                              password notes])))) w))
    as (w' & Hend & Hvault & _).
  exists w'. split; [exact Hend|]. split; [exact Hvault|].
  split; [apply getitem_app_new|]. split; [apply getitem_app_new|].
  intros j Hj. now apply getitem_app_old.
Qed.

Lemma addItem_appends_witness :
  exists w',
    ended (addItem "1" "forum" "carol" "p4" "" (sample_world [] [] [true])) w'
    /\ vault w'
       = Some (mkVault (categories sample_vault)
                       (Some (stored_secrets sample_vault
                                ++ [mkSecret "1" "forum" "carol" "p4" ""])))
    /\ Py.getitem (stored_secrets sample_vault ++ [mkSecret "1" "forum" "carol" "p4" ""])
                  (Z.of_nat (length (stored_secrets sample_vault)))
       = Some (mkSecret "1" "forum" "carol" "p4" "")
    /\ Py.getitem (stored_secrets sample_vault ++ [mkSecret "1" "forum" "carol" "p4" ""])
                  (- (1))
       = Some (mkSecret "1" "forum" "carol" "p4" "")
    /\ (forall j,
           (0 <= j < Z.of_nat (length (stored_secrets sample_vault)))%Z ->
           Py.getitem (stored_secrets sample_vault
                         ++ [mkSecret "1" "forum" "carol" "p4" ""]) j
           = Py.getitem (stored_secrets sample_vault) j).
Proof.
  apply (addItem_appends "1" "forum" "carol" "p4" "" (sample_world [] [] [true])
                         sample_vault).
  reflexivity.
Defined.

Lemma pop_getitem {A : Type} (l l' : list A) (k : Z) (x : A) :
  Py.pop l k = Some (x, l') -> Py.getitem l k = Some x.
Proof.
  unfold Py.pop, Py.getitem.
  destruct (Py.norm_index (length l) k) as [p|]; [|discriminate].
  destruct (nth_error l p) as [y|]; [|discriminate].
  intros H. now injection H as -> _.
Qed.

Lemma pop_negative {A : Type} (l : list A) (k : Z) :
  (1 <= k <= Z.of_nat (length l))%Z ->
  exists x,
    nth_error l (length l - Z.to_nat k) = Some x
    /\ Py.getitem l (- k) = Some x
    /\ Py.pop l (- k)
       = Some (x, firstn (length l - Z.to_nat k) l
                    ++ skipn (S (length l - Z.to_nat k)) l).
Proof.
  intros H.
  destruct (nth_error l (length l - Z.to_nat k)) as [x|] eqn:Hx.
  - exists x. split; [reflexivity|]. split.
    + now rewrite getitem_negative.
    + unfold Py.pop. now rewrite norm_index_negative, Hx.
  - apply nth_error_None in Hx. lia.
Qed.

(** X5.  [itemDelete] with a negative index deletes from the end.  For
    [1 <= k <= length], deleting at index [-k], once confirmed, takes out
    exactly the secret at position [length - k], the one [get] shows for
    that index, and leaves the others in their order. *)
Theorem itemDelete_negative_index :
  forall (w : World) (v : Vault) (l : list SecretItem) (k : Z) (more : list bool),
    vault w = Some v -> secrets v = Some l -> confirms w = true :: more ->
    (1 <= k <= Z.of_nat (length l))%Z ->
    exists (w' : World) (item : SecretItem),
      itemDelete (- k) w = Ret tt w'
      /\ Py.getitem l (- k) = Some item
      /\ nth_error l (length l - Z.to_nat k) = Some item
      /\ vault w'
         = Some (mkVault (categories v)
                         (Some (firstn (length l - Z.to_nat k) l
                                  ++ skipn (S (length l - Z.to_nat k)) l))).
Proof.
  intros w v l k more Hv Hs Hc Hk.
  destruct (pop_negative l k Hk) as (item & Hnth & Hget & Hpop).
  destruct (itemDelete_confirmed w v l _ (- k) item more Hv Hs Hc Hget Hpop)
    as (w' & Hrun & Hvault).
  exists w', item. repeat split; trivial.
Qed.

Lemma itemDelete_negative_index_witness :
  (1 <= 1 <= Z.of_nat (length [bank; mail; shop]))%Z
  /\ exists (w' : World) (item : SecretItem),
      itemDelete (- (1)) (sample_world [] [true] []) = Ret tt w'
      /\ Py.getitem [bank; mail; shop] (- (1)) = Some item
      /\ nth_error [bank; mail; shop] (length [bank; mail; shop] - Z.to_nat 1) = Some item
      /\ vault w'
         = Some (mkVault (categories sample_vault)
                         (Some (firstn (length [bank; mail; shop] - Z.to_nat 1)
                                       [bank; mail; shop]
                                  ++ skipn (S (length [bank; mail; shop] - Z.to_nat 1))
                                           [bank; mail; shop]))).
Proof.
  split; [simpl; lia|].
  apply (itemDelete_negative_index (sample_world [] [true] []) sample_vault
                                   [bank; mail; shop] 1 []).
  - reflexivity.
  - reflexivity.
  - reflexivity.
  - simpl. lia.
Defined.

(** X6.  When nothing is to be deleted, nothing changes.  For an index
    that addresses no secret [itemDelete] reports that the item does not
    exist without asking for a confirmation; for one that does, an answer
    of no ends the call.  Either way the vault, the key, the file and the
    answers still to come at the prompts are as they were. *)
Theorem itemDelete_leaves_vault_alone :
  forall (w : World) (v : Vault) (l : list SecretItem) (k : Z),
    vault w = Some v -> secrets v = Some l ->
    ((Z.of_nat (length l) <= k \/ k < - Z.of_nat (length l))%Z ->
     itemDelete k w = Ret tt (emit [Print "Item does not exist."] w))
    /\ (forall more,
           (- Z.of_nat (length l) <= k < Z.of_nat (length l))%Z ->
           confirms w = false :: more ->
           itemDelete k w = Ret tt (set_confirms more (emit [Print ""] w))).
Proof.
  intros w v l k Hv Hs. split.
  - intros Hk. unfold itemDelete. rewrite Hv, Hs, getitem_outside by exact Hk.
    reflexivity.
  - intros more Hk Hc. unfold itemDelete. rewrite Hv, Hs.
    destruct (Py.getitem l k) as [item|] eqn:Hitem.
    + unfold bind, say, confirm. simpl. rewrite Hc. reflexivity.
    + exfalso. destruct (Z_lt_le_dec k 0) as [Hneg|Hpos].
      * replace k with (- (- k))%Z in Hitem by lia.
        rewrite getitem_negative in Hitem by lia.
        apply nth_error_None in Hitem. lia.
      * rewrite getitem_nonneg in Hitem by lia.
        apply nth_error_None in Hitem. lia.
Qed.

Lemma itemDelete_leaves_vault_alone_witness :
  itemDelete 7 (sample_world [] [true] [])
  = Ret tt (emit [Print "Item does not exist."] (sample_world [] [true] []))
  /\ itemDelete 1 (sample_world [] [false; true] [])
     = Ret tt (set_confirms [true] (emit [Print ""] (sample_world [] [false; true] []))).
Proof.
  split.
  - apply (proj1 (itemDelete_leaves_vault_alone (sample_world [] [true] []) sample_vault
                    [bank; mail; shop] 7 eq_refl eq_refl)).
    left. simpl. lia.
  - apply (proj2 (itemDelete_leaves_vault_alone (sample_world [] [false; true] [])
                    sample_vault [bank; mail; shop] 1 eq_refl eq_refl) [true]).
    + simpl. lia.
    + reflexivity.
Defined.

(** X7.  A failed save after a deletion is reported as a missing item.
    When the write of the file fails, [itemDelete] still returns normally:
    it prints that the item does not exist, the secret is gone from the
    vault in memory, and the file is the one from before. *)
Theorem itemDelete_failed_save :
  forall (w : World) (v : Vault) (l l' : list SecretItem) (k : Z) (item : SecretItem)
         (key : string) (more rest : list bool),
    vault w = Some v -> secrets v = Some l -> masterKey w = Some key ->
    Py.pop l k = Some (item, l') ->
    confirms w = true :: more -> faults w = true :: rest ->
    exists w',
      itemDelete k w = Ret tt w'
      /\ log w' = log w ++ [Print ""; Print "Item does not exist."]
      /\ vault w' = Some (mkVault (categories v) (Some l'))
      /\ disk w' = disk w.
Proof.
  intros w v l l' k item key more rest Hv Hs Hk Hpop Hc Hf.
  unfold itemDelete. rewrite Hv, Hs, (pop_getitem l l' k item Hpop).
  unfold bind, say, confirm. simpl. rewrite Hc, Hpop.
  unfold saveVault. simpl. rewrite Hk, Hf. simpl.
  eexists. split; [reflexivity|]. simpl. rewrite <- app_assoc. repeat split.
Qed.

Lemma itemDelete_failed_save_witness :
  exists w',
    itemDelete 0 (sample_world [] [true] [true]) = Ret tt w'
    /\ log w' = log (sample_world [] [true] [true])
                  ++ [Print ""; Print "Item does not exist."]
    /\ vault w' = Some (mkVault (categories sample_vault) (Some [mail; shop]))
    /\ disk w' = disk (sample_world [] [true] [true]).
Proof.
  apply (itemDelete_failed_save (sample_world [] [true] [true]) sample_vault
                                [bank; mail; shop] [mail; shop] 0 bank "correcthorse"
                                [] []);
    reflexivity.
Defined.

(** X8.  [get] needs an unlocked vault with secrets.  While the vault is
    locked, or has no key ['secrets'], or has an empty list of secrets,
    [get] shows no item for any index: it prints the exception and that
    the item does not exist, returns [None], and reads nothing from the
    user. *)
Theorem get_without_secrets :
  forall (categoryCheckId : option Vault -> string -> bool)
         (categoryName : option Vault -> string -> string)
         (fuel : nat) (id : Z) (w : World),
    (vault w = None ->
     get categoryCheckId categoryName fuel id w
     = Ret None (emit [PrintExn TypeError; Print "Item does not exist."]
                      (setAutoLockTimer w)))
    /\ (forall v,
           vault w = Some v -> secrets v = None ->
           get categoryCheckId categoryName fuel id w
           = Ret None (emit [PrintExn KeyError; Print "Item does not exist."]
                            (setAutoLockTimer w)))
    /\ (forall v,
           vault w = Some v -> secrets v = Some [] ->
           get categoryCheckId categoryName fuel id w
           = Ret None (emit [PrintExn IndexError; Print "Item does not exist."]
                            (setAutoLockTimer w))).
Proof.
  intros categoryCheckId categoryName fuel id w. repeat split.
  - intros Hv. unfold get. simpl. rewrite Hv. reflexivity.
  - intros v Hv Hs. unfold get. simpl. rewrite Hv, Hs. reflexivity.
  - intros v Hv Hs. unfold get. simpl. rewrite Hv, Hs.
    assert (Hnone : Py.getitem (@nil SecretItem) id = None).
    { unfold Py.getitem. destruct (Py.norm_index (length (@nil SecretItem)) id) as [p|];
        [destruct p; reflexivity|reflexivity]. }
    rewrite Hnone. reflexivity.
Qed.

Lemma get_without_secrets_witness :
  get categoryCheckId_model categoryName_model 1 0 (lock (sample_world [] [] []))
  = Ret None (emit [PrintExn TypeError; Print "Item does not exist."]
                   (setAutoLockTimer (lock (sample_world [] [] [])))).
Proof.
  apply (proj1 (get_without_secrets categoryCheckId_model categoryName_model 1 0
                  (lock (sample_world [] [] [])))).
  reflexivity.
Defined.

(** ** Editing a field *)

Lemma replace_nth {A : Type} (l : list A) (p : nat) (x y : A) :
  nth_error l p = Some x ->
  length (firstn p l ++ y :: skipn (S p) l) = length l
  /\ nth_error (firstn p l ++ y :: skipn (S p) l) p = Some y
  /\ (forall q, q <> p ->
                nth_error (firstn p l ++ y :: skipn (S p) l) q = nth_error l q).
Proof.
  revert p. induction l as [|a l IH]; intros p H.
  - destruct p; discriminate.
  - destruct p as [|p].
    + simpl. repeat split. intros [|q] Hq; [congruence|reflexivity].
    + simpl in H. destruct (IH p H) as (Hlen & Hp & Hq).
      change (firstn (S p) (a :: l) ++ y :: skipn (S (S p)) (a :: l))
        with (a :: (firstn p l ++ y :: skipn (S p) l)).
      repeat split.
      * cbn [length]. now rewrite Hlen.
      * exact Hp.
      * intros [|q] Hne; [reflexivity|].
        change (nth_error (firstn p l ++ y :: skipn (S p) l) q = nth_error l q).
        apply Hq. congruence.
Qed.

Lemma setitem_spec {A : Type} (l : list A) (k : Z) (g : A -> A) (x : A) :
  Py.getitem l k = Some x ->
  exists l',
    Py.setitem l k g = Some l'
    /\ length l' = length l
    /\ Py.getitem l' k = Some (g x)
    /\ (forall j, other_position (length l) j k -> Py.getitem l' j = Py.getitem l j).
Proof.
  unfold Py.getitem, Py.setitem, other_position.
  destruct (Py.norm_index (length l) k) as [p|] eqn:Hk; [|discriminate].
  intros Hx. rewrite Hx.
  destruct (replace_nth l p x (g x) Hx) as (Hlen & Hp & Hq).
  eexists. split; [reflexivity|]. split; [exact Hlen|]. split.
  - now rewrite Hlen, Hk.
  - intros j Hj. rewrite Hlen.
    destruct (Py.norm_index (length l) j) as [q|]; [|reflexivity].
    apply Hq. congruence.
Qed.

Lemma setitem_none {A : Type} (l : list A) (k : Z) (g : A -> A) :
  Py.getitem l k = None -> Py.setitem l k g = None.
Proof.
  unfold Py.getitem, Py.setitem.
  destruct (Py.norm_index (length l) k) as [p|]; [|reflexivity].
  intros H. now rewrite H.
Qed.

Lemma save_then_say_ended (es : list Event) (w : World) :
  exists w',
    ended ((saveVault ;;; say es) w) w'
    /\ vault w' = vault w /\ masterKey w' = masterKey w /\ stdin w' = stdin w.
Proof.
  unfold bind, saveVault, say, ended.
  destruct (vault w) as [v|] eqn:Hv;
    [destruct (masterKey w) as [k|] eqn:Hk; [destruct (faults w) as [|[|] rest]|]|];
    eexists; (split; [first [left; eexists; reflexivity|right; eexists; reflexivity]|]);
    simpl; repeat split; trivial.
Qed.

Section Editing.

Variable categoryCheckId : option Vault -> string -> bool.

(** How [editItemInput] goes on once it has read the new value of a field
    other than the notes, the category being empty or an existing one. *)
Lemma editItemInput_reads_value (fuel : nat) (itemKey : Z) (fieldName : Field)
      (current value : string) (rest : list Input) (w : World) :
  stdin w = Typed value :: rest ->
  fieldName <> F_notes ->
  (fieldName = F_category -> value = "" \/ categoryCheckId (vault w) value = true) ->
  exists w1,
    store_of w1 = store_of w /\ stdin w1 = rest
    /\ editItemInput categoryCheckId (S fuel) itemKey fieldName current w
       = match vault w1 with
         | None => Raise TypeError w1
         | Some v =>
             match secrets v with
             | None => Raise KeyError w1
             | Some l =>
                 match Py.setitem l itemKey (set_field fieldName value) with
                 | None => Raise IndexError w1
                 | Some l' =>
                     (saveVault ;;; say [Print "The item has been updated."])
                       (set_vault (Some (mkVault (categories v) (Some l'))) w1)
                 end
             end
         end.
Proof.
  intros Hin Hf Hc. cbn [editItemInput].
  destruct fieldName; try congruence.
  - assert (Hcond : negb (value =? "") && negb (categoryCheckId (vault w) value) = false).
    { destruct (Hc eq_refl) as [->|H]; [reflexivity|].
      rewrite H. apply andb_false_r. }
    unfold bind at 1. unfold say at 1. unfold bind at 1. unfold input at 1.
    simpl stdin. rewrite Hin. simpl vault. rewrite Hcond.
    eexists. split; [|split; [|reflexivity]]; reflexivity.
  - unfold input at 1. simpl stdin. rewrite Hin.
    eexists. split; [|split; [|reflexivity]]; reflexivity.
  - unfold input at 1. simpl stdin. rewrite Hin.
    eexists. split; [|split; [|reflexivity]]; reflexivity.
  - unfold bind at 1. unfold say at 1. unfold getpass, input at 1.
    simpl stdin. rewrite Hin.
    eexists. split; [|split; [|reflexivity]]; reflexivity.
Qed.

(** X9.  Editing a field stores what was typed.  For a field other than
    the notes, a new value typed at the prompt (for the category: empty or
    an existing one) and an index that addresses a secret, the vault in
    memory afterwards, whether the save succeeds or raises, has the same
    number of secrets; the addressed one has the new value in that field
    and is otherwise as it was at that moment, and every other position is
    untouched. *)
Theorem editItemInput_stores_value :
  forall (fuel : nat) (w : World) (v : Vault) (l : list SecretItem) (itemKey : Z)
         (fieldName : Field) (current value : string) (rest : list Input)
         (item : SecretItem),
    vault w = Some v -> secrets v = Some l ->
    stdin w = Typed value :: rest ->
    fieldName <> F_notes ->
    (fieldName = F_category -> value = "" \/ categoryCheckId (vault w) value = true) ->
    Py.getitem l itemKey = Some item ->
    exists (w' : World) (l' : list SecretItem),
      ended (editItemInput categoryCheckId (S fuel) itemKey fieldName current w) w'
      /\ vault w' = Some (mkVault (categories v) (Some l'))
      /\ stdin w' = rest
      /\ length l' = length l
      /\ Py.getitem l' itemKey = Some (set_field fieldName value item)
      /\ (forall j, other_position (length l) j itemKey ->
                    Py.getitem l' j = Py.getitem l j).
Proof.
  intros fuel w v l itemKey fieldName current value rest item Hv Hs Hin Hf Hc Hitem.
  destruct (editItemInput_reads_value fuel itemKey fieldName current value rest w
              Hin Hf Hc) as (w1 & Hstore & Hrest & Hrun).
  assert (Hv1 : vault w1 = Some v).
  { unfold store_of in Hstore. injection Hstore as H _ _ _. now rewrite H. }
  rewrite Hv1, Hs in Hrun.
  destruct (setitem_spec l itemKey (set_field fieldName value) item Hitem)
    as (l' & Hset & Hlen & Hnew & Hold).
  rewrite Hset in Hrun.
  destruct (save_then_say_ended [Print "The item has been updated."]
              (set_vault (Some (mkVault (categories v) (Some l'))) w1))
    as (w' & Hend & Hvault & _ & Hstdin).
  exists w', l'. rewrite Hrun. repeat split; trivial.
  now rewrite Hstdin.
Qed.

(** X10.  Editing checks the index only after the new value has been
    read.  For an index that addresses no secret, [editItemInput] still
    asks for the new value and then raises [IndexError], which it does not
    catch itself; the vault, the key and the file are as they were. *)
Theorem editItemInput_bad_index :
  forall (fuel : nat) (w : World) (v : Vault) (l : list SecretItem) (itemKey : Z)
         (fieldName : Field) (current value : string) (rest : list Input),
    vault w = Some v -> secrets v = Some l ->
    stdin w = Typed value :: rest ->
    fieldName <> F_notes ->
    (fieldName = F_category -> value = "" \/ categoryCheckId (vault w) value = true) ->
    Py.getitem l itemKey = None ->
    exists w',
      editItemInput categoryCheckId (S fuel) itemKey fieldName current w
      = Raise IndexError w'
      /\ store_of w' = store_of w
      /\ stdin w' = rest.
Proof.
  intros fuel w v l itemKey fieldName current value rest Hv Hs Hin Hf Hc Hitem.
  destruct (editItemInput_reads_value fuel itemKey fieldName current value rest w
              Hin Hf Hc) as (w1 & Hstore & Hrest & Hrun).
  assert (Hv1 : vault w1 = Some v).
  { unfold store_of in Hstore. injection Hstore as H _ _ _. now rewrite H. }
  rewrite Hv1, Hs, (setitem_none l itemKey _ Hitem) in Hrun.
  exists w1. repeat split; trivial.
Qed.

(** X11.  Ctrl-C at the prompt for the new value cancels the edit, for
    every field: [editItemInput] prints an empty line and returns, and the
    vault, the key and the file are as they were. *)
Theorem editItemInput_cancelled :
  forall (fuel : nat) (w : World) (itemKey : Z) (fieldName : Field) (current : string)
         (rest : list Input),
    stdin w = CtrlC :: rest ->
    exists w',
      editItemInput categoryCheckId (S fuel) itemKey fieldName current w = Ret tt w'
      /\ store_of w' = store_of w
      /\ stdin w' = rest
      /\ last (log w') (Print "x") = Print "".
Proof.
  intros fuel w itemKey fieldName current rest Hin. cbn [editItemInput].
  destruct fieldName;
    unfold bind, say, getpass, input, read_notes; simpl; rewrite Hin; simpl;
    eexists; (split; [reflexivity|]); simpl; repeat split; apply last_last.
Qed.

End Editing.

Lemma editItemInput_stores_value_witness :
  exists (w' : World) (l' : list SecretItem),
    ended (editItemInput categoryCheckId_model 1 (- (1)) F_login "bob"
                         (sample_world [Typed "robert"] [] [])) w'
    /\ vault w' = Some (mkVault (categories sample_vault) (Some l'))
    /\ stdin w' = []
    /\ length l' = length [bank; mail; shop]
    /\ Py.getitem l' (- (1)) = Some (set_field F_login "robert" shop)
    /\ (forall j, other_position (length [bank; mail; shop]) j (- (1)) ->
                  Py.getitem l' j = Py.getitem [bank; mail; shop] j).
Proof.
  apply (editItemInput_stores_value categoryCheckId_model 0
           (sample_world [Typed "robert"] [] []) sample_vault [bank; mail; shop]
           (- (1)) F_login "bob" "robert" [] shop).
  - reflexivity.
  - reflexivity.
  - reflexivity.
  - discriminate.
  - discriminate.
  - reflexivity.
Defined.

Lemma editItemInput_bad_index_witness :
  exists w',
    editItemInput categoryCheckId_model 1 3 F_name "x"
                  (sample_world [Typed "y"; Typed "z"] [] [])
    = Raise IndexError w'
    /\ store_of w' = store_of (sample_world [Typed "y"; Typed "z"] [] [])
    /\ stdin w' = [Typed "z"].
Proof.
  apply (editItemInput_bad_index categoryCheckId_model 0
           (sample_world [Typed "y"; Typed "z"] [] []) sample_vault [bank; mail; shop]
           3 F_name "x" "y" [Typed "z"]).
  - reflexivity.
  - reflexivity.
  - reflexivity.
  - discriminate.
  - discriminate.
  - reflexivity.
Defined.

Lemma editItemInput_cancelled_witness :
  exists w',
    editItemInput categoryCheckId_model 1 0 F_notes ""
                  (sample_world [CtrlC; Typed "z"] [] [])
    = Ret tt w'
    /\ store_of w' = store_of (sample_world [CtrlC; Typed "z"] [] [])
    /\ stdin w' = [Typed "z"]
    /\ last (log w') (Print "x") = Print "".
Proof.
  apply (editItemInput_cancelled categoryCheckId_model 0
           (sample_world [CtrlC; Typed "z"] [] []) 0 F_notes "" [Typed "z"]).
  reflexivity.
Defined.

(** ** The dialogue that adds a secret *)

Lemma notes_loop_reads (lines : list string) :
  Forall (fun s => s <> "") lines ->
  forall (notes : list string) (rest : list Input) (w : World),
    notes_loop (map Typed lines ++ Typed "" :: rest) notes w
    = Ret (notes ++ lines) (set_stdin rest w).
Proof.
  induction 1 as [|s lines Hs Hall IH]; intros notes rest w; simpl.
  - now rewrite app_nil_r.
  - apply String.eqb_neq in Hs. rewrite Hs, IH, <- app_assoc. reflexivity.
Qed.

Lemma notes_loop_interrupted (lines : list string) :
  Forall (fun s => s <> "") lines ->
  forall (notes : list string) (rest : list Input) (w : World),
    notes_loop (map Typed lines ++ CtrlC :: rest) notes w
    = Raise KeyboardInterrupt (set_stdin rest w).
Proof.
  induction 1 as [|s lines Hs Hall IH]; intros notes rest w; simpl.
  - reflexivity.
  - apply String.eqb_neq in Hs. rewrite Hs, IH. reflexivity.
Qed.

Lemma addItem_then_say_ended (es : list Event)
      (categoryId name login password notes : string) (w : World) (v : Vault) :
  vault w = Some v ->
  exists w',
    ended ((addItem categoryId name login password notes ;;; say es) w) w'
    /\ vault w'
       = Some (mkVault (categories v)
                       (Some (stored_secrets v
                                ++ [mkSecret categoryId name login password notes])))
    /\ stdin w' = stdin w.
Proof.
  intros Hv.
  destruct (save_then_say_ended es
              (set_vault (Some (mkVault (categories v)
                                        (Some (stored_secrets v
                                                 ++ [mkSecret categoryId name login
                                                              password notes])))) w))
    as (w' & Hend & Hvault & _ & Hstdin).
  exists w'. split; [|now split].
  unfold bind, addItem in *. rewrite Hv, present_secrets. exact Hend.
Qed.

Section Adding.

Variable categoryCheckId : option Vault -> string -> bool.

(** X12.  The dialogue that adds a secret stores what was typed.  The
    user types a category (only when the vault has categories; empty or an
    existing one), a name, a login, a password and lines of notes closed by
    an empty line: whether the save succeeds or raises, the vault in memory
    then holds one more secret, after the others, with those values, the
    notes being the lines joined by line feeds and the category empty when
    none was asked for. *)
Theorem addItemInput_stores_typed :
  forall (fuel : nat) (w : World) (v : Vault) (categoryId name login password : string)
         (lines : list string) (rest : list Input),
    vault w = Some v ->
    stdin w = (if truthy (categories v) then [Typed categoryId] else [])
                ++ Typed name :: Typed login :: Typed password
                :: map Typed lines ++ Typed "" :: rest ->
    (truthy (categories v) = true ->
     categoryId = "" \/ categoryCheckId (vault w) categoryId = true) ->
    Forall (fun s => s <> "") lines ->
    exists w',
      ended (addItemInput categoryCheckId (S fuel) w) w'
      /\ vault w'
         = Some (mkVault (categories v)
                         (Some (stored_secrets v
                                  ++ [mkSecret (if truthy (categories v) then categoryId else "")
                                               name login password
                                               (Py.join Py.newline lines)])))
      /\ stdin w' = rest.
Proof.
  intros fuel w v categoryId name login password lines rest Hv Hin Hc Hlines.
  cbn [addItemInput]. change (vault (setAutoLockTimer w)) with (vault w). rewrite Hv.
  destruct (truthy (categories v)) eqn:Ht.
  - simpl app in Hin.
    assert (Hcond : negb (categoryId =? "")
                    && negb (categoryCheckId (vault w) categoryId) = false).
    { destruct (Hc eq_refl) as [->|H]; [reflexivity|]. rewrite H. apply andb_false_r. }
    unfold bind, say, prompt, input, getpass, read_notes. simpl. rewrite Hin. simpl.
    rewrite Hcond. simpl. rewrite (notes_loop_reads lines Hlines). simpl.
    destruct (addItem_then_say_ended
                [Print ""; Print "The new item has been saved to your vault."; Print ""]
                categoryId name login password (Py.join Py.newline lines)
                (set_stdin rest
                   (emit [Print "* Notes: (press [ENTER] twice to complete)"]
                      (emit [Suggestion "* Password suggestion: "]
                         (emit [Print ""; Print "* Available categories:";
                                CategoriesList; Print ""]
                               (setAutoLockTimer w))))) v Hv)
      as (w' & Hend & Hvault & Hstdin).
    exists w'. split; [exact Hend|]. split; [exact Hvault|exact Hstdin].
  - simpl app in Hin.
    unfold bind, say, prompt, input, getpass, read_notes. simpl. rewrite Hin. simpl.
    rewrite (notes_loop_reads lines Hlines). simpl.
    destruct (addItem_then_say_ended
                [Print ""; Print "The new item has been saved to your vault."; Print ""]
                "" name login password (Py.join Py.newline lines)
                (set_stdin rest
                   (emit [Print "* Notes: (press [ENTER] twice to complete)"]
                      (emit [Suggestion "* Password suggestion: "]
                         (emit [Print "";
                                Print "* Category: you did not create a category yet. Create one from the main menu to use this feature!"]
                               (setAutoLockTimer w))))) v Hv)
      as (w' & Hend & Hvault & Hstdin).
    exists w'. split; [exact Hend|]. split; [exact Hvault|exact Hstdin].
Qed.

(** X13.  Ctrl-C cancels the dialogue that adds a secret.  Pressed at the
    category prompt, or, the category settled, at the prompt for the name,
    the login, the password or any line of the notes, it ends
    [addItemInput] with nothing added: the vault, the key and the file are
    as they were. *)
Theorem addItemInput_cancelled :
  forall (fuel : nat) (w : World) (v : Vault),
    vault w = Some v ->
    (forall (categoryId : string) (typed : list string) (rest : list Input),
        stdin w = (if truthy (categories v) then [Typed categoryId] else [])
                    ++ map Typed typed ++ CtrlC :: rest ->
        (truthy (categories v) = true ->
         categoryId = "" \/ categoryCheckId (vault w) categoryId = true) ->
        Forall (fun s => s <> "") (skipn 3 typed) ->
        exists w',
          addItemInput categoryCheckId (S fuel) w = Ret tt w'
          /\ store_of w' = store_of w
          /\ stdin w' = rest)
    /\ (forall rest : list Input,
           truthy (categories v) = true ->
           stdin w = CtrlC :: rest ->
           exists w',
             addItemInput categoryCheckId (S fuel) w = Ret tt w'
             /\ store_of w' = store_of w
             /\ stdin w' = rest).
Proof.
  intros fuel w v Hv. split.
  - intros categoryId typed rest Hin Hc Hlines.
    cbn [addItemInput]. change (vault (setAutoLockTimer w)) with (vault w). rewrite Hv.
    destruct (truthy (categories v)) eqn:Ht.
    + assert (Hcond : negb (categoryId =? "")
                      && negb (categoryCheckId (vault w) categoryId) = false).
      { destruct (Hc eq_refl) as [->|H]; [reflexivity|]. rewrite H. apply andb_false_r. }
      destruct typed as [|name [|login [|password lines]]]; simpl in Hin, Hlines;
        unfold bind, say, prompt, input, getpass, read_notes; simpl; rewrite Hin; simpl;
        rewrite Hcond; simpl; rewrite ?(notes_loop_interrupted lines Hlines);
        eexists; (split; [reflexivity|]); split; reflexivity.
    + destruct typed as [|name [|login [|password lines]]]; simpl in Hin, Hlines;
        unfold bind, say, input, getpass, read_notes; simpl; rewrite Hin; simpl;
        rewrite ?(notes_loop_interrupted lines Hlines);
        eexists; (split; [reflexivity|]); split; reflexivity.
  - intros rest Ht Hin.
    cbn [addItemInput]. change (vault (setAutoLockTimer w)) with (vault w).
    rewrite Hv, Ht.
    unfold bind, say, prompt; simpl; rewrite Hin; simpl.
    eexists; (split; [reflexivity|]); split; reflexivity.
Qed.

End Adding.

(** ** Attempts at a new master key *)

(** X14.  Attempts that are turned down leave no trace.  However many
    times in a row the user types a new master key that is too short or a
    confirmation that does not agree, [changeKey] starts over each time:
    the live key, the vault and the file are as they were, and the dialogue
    goes on with what is typed next. *)
Theorem changeKey_rejected_attempts :
  forall (attempts : list (string * string)) (fuel : nat) (w : World) (v : Vault)
         (rest : list Input),
    vault w = Some v ->
    Forall rejected attempts ->
    stdin w = typed_twice attempts ++ rest ->
    exists w',
      changeKey (length attempts + fuel) w = changeKey fuel w'
      /\ store_of w' = store_of w
      /\ stdin w' = rest.
Proof.
  induction attempts as [|[first second] attempts IH];
    intros fuel w v rest Hv Hrej Hin.
  - exists w. repeat split. exact Hin.
  - inversion Hrej as [|? ? Hr Hrest]; subst.
    simpl in Hin. cbn [length Nat.add].
    rewrite (changeKey_step _ w v first second (typed_twice attempts ++ rest) Hv Hin).
    assert (Hgo : forall es,
               exists w', (say es ;;; changeKey (length attempts + fuel))
                            (set_stdin (typed_twice attempts ++ rest) (emit [Print ""] w))
                          = changeKey fuel w'
                          /\ store_of w' = store_of w /\ stdin w' = rest).
    { intros es.
      destruct (IH fuel (emit es (set_stdin (typed_twice attempts ++ rest)
                                            (emit [Print ""] w))) v rest)
        as (w' & Hrun & Hstore & Hstdin); trivial.
      exists w'. repeat split; trivial. }
    destruct (String.length first <? 8)%nat eqn:Hlen; [apply Hgo|].
    destruct (String.eqb_spec first second) as [Heq|Hne]; [|apply Hgo].
    exfalso. destruct Hr as [Hshort|Hdiff]; simpl in *.
    + apply Nat.ltb_ge in Hlen. lia.
    + contradiction.
Qed.


(** ** The menus *)

Lemma lower_char_idem (c : ascii) : Py.lower_char (Py.lower_char c) = Py.lower_char c.
Proof. destruct c as [[] [] [] [] [] [] [] []]; reflexivity. Qed.

Lemma lower_idem (s : string) : Py.lower (Py.lower s) = Py.lower s.
Proof. induction s as [|c s IH]; simpl; [reflexivity|now rewrite lower_char_idem, IH]. Qed.

Lemma stdin_checkThenSetAutoLockTimer (w : World) :
  stdin (checkThenSetAutoLockTimer w) = stdin w.
Proof. unfold checkThenSetAutoLockTimer. destruct (idle w) as [|[|] rest]; reflexivity. Qed.

Lemma checkThenSetAutoLockTimer_set_stdin (ins : list Input) (w : World) :
  checkThenSetAutoLockTimer (set_stdin ins w)
  = set_stdin ins (checkThenSetAutoLockTimer w).
Proof. unfold checkThenSetAutoLockTimer. simpl. destruct (idle w) as [|[|] rest]; reflexivity. Qed.

Lemma awake_checkThenSetAutoLockTimer (w : World) :
  awake w ->
  store_of (checkThenSetAutoLockTimer w) = store_of w
  /\ stdin (checkThenSetAutoLockTimer w) = stdin w
  /\ confirms (checkThenSetAutoLockTimer w) = confirms w
  /\ awake (checkThenSetAutoLockTimer w).
Proof.
  unfold awake, checkThenSetAutoLockTimer. intros H.
  destruct (idle w) as [|[|] rest] eqn:Hi; simpl.
  - repeat split. now rewrite Hi.
  - inversion H; discriminate.
  - repeat split. now inversion H.
Qed.

Lemma show_item_keeps (categoryName : option Vault -> string -> string)
      (item : SecretItem) (w : World) :
  stdin (show_item categoryName item w) = stdin w
  /\ confirms (show_item categoryName item w) = confirms w
  /\ idle (show_item categoryName item w) = idle w.
Proof. unfold show_item. destruct (notes item =? ""); repeat split. Qed.

Lemma except_keeps_vault (r : Res (option string)) (w1 : World) :
  ended r w1 ->
  exists w', ended (except_Exception item_does_not_exist r) w' /\ vault w' = vault w1.
Proof.
  intros [[a ->]|[e ->]]; simpl.
  - exists w1. split; [left; now exists a|reflexivity].
  - destruct (is_Exception e).
    + eexists. split; [left; eexists; reflexivity|reflexivity].
    + exists w1. split; [right; now exists e|reflexivity].
Qed.


Section Menus.

Variable categoryCheckId : option Vault -> string -> bool.
Variable categoryName : option Vault -> string -> string.

(** X15.  The item menu and the edit menu read their command without
    regard to case: a command typed in upper case does what the same
    command typed in lower case does. *)
Theorem menus_ignore_case :
  forall (fuel : nat) (itemKey : Z) (item : SecretItem) (w : World)
         (typed : string) (rest : list Input),
    stdin w = Typed typed :: rest ->
    itemMenu categoryCheckId categoryName fuel itemKey item w
    = itemMenu categoryCheckId categoryName fuel itemKey item
               (set_stdin (Typed (Py.lower typed) :: rest) w)
    /\ itemEdit categoryCheckId categoryName fuel itemKey item w
       = itemEdit categoryCheckId categoryName fuel itemKey item
                  (set_stdin (Typed (Py.lower typed) :: rest) w).
Proof.
  intros fuel itemKey item w typed rest Hin.
  destruct fuel as [|fuel]; [split; reflexivity|].
  split.
  - cbn [itemMenu]. unfold prompt. simpl stdin.
    rewrite checkThenSetAutoLockTimer_set_stdin, stdin_checkThenSetAutoLockTimer, Hin.
    simpl stdin. simpl prompt_loop. cbv iota beta. rewrite !lower_idem. reflexivity.
  - cbn [itemEdit]. unfold prompt. simpl stdin.
    rewrite checkThenSetAutoLockTimer_set_stdin, stdin_checkThenSetAutoLockTimer, Hin.
    simpl stdin. simpl prompt_loop. cbv iota beta. rewrite !lower_idem. reflexivity.
Qed.


(** The world in which the item menu of [get] acts on the command it has read. *)
Lemma item_menu_world (item : SecretItem) (w : World) (rest : list Input) :
  awake w ->
  exists W,
    W = set_stdin rest
          (emit [Print ""]
                (checkThenSetAutoLockTimer
                   (show_item categoryName item (setAutoLockTimer w))))
    /\ store_of W = store_of w /\ stdin W = rest /\ confirms W = confirms w /\ awake W.
Proof.
  intros Ha. eexists. split; [reflexivity|].
  destruct (show_item_keeps categoryName item (setAutoLockTimer w)) as (Hs & Hc & Hi).
  assert (Ha' : awake (show_item categoryName item (setAutoLockTimer w))).
  { unfold awake. rewrite Hi. exact Ha. }
  destruct (awake_checkThenSetAutoLockTimer _ Ha') as (Hst & Hin & Hco & Haw).
  repeat split.
  - transitivity (store_of (checkThenSetAutoLockTimer
                              (show_item categoryName item (setAutoLockTimer w))));
      [reflexivity|].
    rewrite Hst. exact (quiet_show_item categoryName item (setAutoLockTimer w)).
  - simpl. rewrite Hco. exact Hc.
  - exact Haw.
Qed.

(** X17.  Deleting through the menus.  The user opens a secret with
    [get], answers the item menu with [d] (in either case) and confirms;
    the idle TTL not having run out, [get] returns [None] and the vault in
    memory is the one from before without that secret. *)
Theorem get_then_delete :
  forall (fuel : nat) (w : World) (v : Vault) (l l' : list SecretItem) (id : Z)
         (item : SecretItem) (typed : string) (rest : list Input) (more : list bool),
    vault w = Some v -> secrets v = Some l ->
    Py.pop l id = Some (item, l') ->
    stdin w = Typed typed :: rest -> Py.lower typed = "d" ->
    confirms w = true :: more ->
    awake w ->
    exists w',
      get categoryCheckId categoryName (S fuel) id w = Ret None w'
      /\ vault w' = Some (mkVault (categories v) (Some l')).
Proof.
  intros fuel w v l l' id item typed rest more Hv Hs Hpop Hin Hd Hc Ha.
  pose proof (pop_getitem l l' id item Hpop) as Hitem.
  unfold get. change (vault (setAutoLockTimer w)) with (vault w).
  rewrite Hv, Hs, Hitem. cbn [itemMenu]. unfold prompt.
  destruct (show_item_keeps categoryName item (setAutoLockTimer w)) as (Hsi & _ & _).
  change (stdin (emit [Print ""] (checkThenSetAutoLockTimer
                                     (show_item categoryName item (setAutoLockTimer w)))))
    with (stdin (checkThenSetAutoLockTimer
                   (show_item categoryName item (setAutoLockTimer w)))).
  rewrite stdin_checkThenSetAutoLockTimer, Hsi. simpl stdin. rewrite Hin.
  simpl prompt_loop. cbv iota beta. rewrite Hd. simpl String.eqb. cbv iota.
  destruct (item_menu_world item w rest Ha) as (W & HW & Hstore & _ & Hconf & _).
  rewrite <- HW.
  assert (HvW : vault W = Some v).
  { unfold store_of in Hstore. injection Hstore as H _ _ _. now rewrite H. }
  rewrite Hc in Hconf.
  destruct (itemDelete_confirmed W v l l' id item more HvW Hs Hconf Hitem Hpop)
    as (w' & Hrun & Hvault).
  exists w'. unfold bind. rewrite Hrun. split; [reflexivity|exact Hvault].
Qed.

(** X18.  Editing through the menus.  The user opens a secret with
    [get], answers the item menu with [e], the edit menu with the letter of
    a field other than the notes (in either case) and types the new value
    (for the category: empty or an existing one); the idle TTL not having
    run out, the vault in memory afterwards has the same number of secrets,
    the opened one with the new value in that field and every other
    position untouched, whether the save succeeded or not. *)
Theorem get_then_edit :
  forall (fuel : nat) (w : World) (v : Vault) (l : list SecretItem) (id : Z)
         (item : SecretItem) (first second value : string) (fieldName : Field)
         (rest : list Input),
    vault w = Some v -> secrets v = Some l ->
    Py.getitem l id = Some item ->
    stdin w = Typed first :: Typed second :: Typed value :: rest ->
    Py.lower first = "e" -> Py.lower second = edit_command fieldName ->
    fieldName <> F_notes ->
    (fieldName = F_category -> value = "" \/ categoryCheckId (Some v) value = true) ->
    awake w ->
    exists (w' : World) (l' : list SecretItem),
      ended (get categoryCheckId categoryName (S (S (S fuel))) id w) w'
      /\ vault w' = Some (mkVault (categories v) (Some l'))
      /\ length l' = length l
      /\ Py.getitem l' id = Some (set_field fieldName value item)
      /\ (forall j, other_position (length l) j id -> Py.getitem l' j = Py.getitem l j).
Proof.
  intros fuel w v l id item first second value fieldName rest
         Hv Hs Hitem Hin He Hcmd Hf Hc Ha.
  (* the item menu reads [e] *)
  unfold get. change (vault (setAutoLockTimer w)) with (vault w).
  rewrite Hv, Hs, Hitem. cbn [itemMenu]. unfold prompt.
  destruct (show_item_keeps categoryName item (setAutoLockTimer w)) as (Hsi & _ & _).
  change (stdin (emit [Print ""] (checkThenSetAutoLockTimer
                                     (show_item categoryName item (setAutoLockTimer w)))))
    with (stdin (checkThenSetAutoLockTimer
                   (show_item categoryName item (setAutoLockTimer w)))).
  rewrite stdin_checkThenSetAutoLockTimer, Hsi. simpl stdin. rewrite Hin.
  simpl prompt_loop. cbv iota beta. rewrite He. simpl String.eqb. cbv iota.
  destruct (item_menu_world item w (Typed second :: Typed value :: rest) Ha)
    as (W & HW & Hstore & HinW & _ & HaW).
  rewrite <- HW.
  (* the edit menu reads the field *)
  unfold bind at 1. cbn [itemEdit]. unfold prompt.
  change (stdin (emit [Print ""] (checkThenSetAutoLockTimer W)))
    with (stdin (checkThenSetAutoLockTimer W)).
  rewrite stdin_checkThenSetAutoLockTimer, HinW. simpl prompt_loop. cbv iota beta.
  rewrite Hcmd.
  destruct (awake_checkThenSetAutoLockTimer W HaW) as (Hstore2 & _ & _ & _).
  set (W2 := set_stdin (Typed value :: rest) (emit [Print ""] (checkThenSetAutoLockTimer W))).
  assert (HvW2 : vault W2 = Some v).
  { unfold store_of in Hstore, Hstore2.
    injection Hstore as H _ _ _. injection Hstore2 as H2 _ _ _.
    change (vault W2) with (vault (checkThenSetAutoLockTimer W)). congruence. }
  assert (HinW2 : stdin W2 = Typed value :: rest) by reflexivity.
  assert (HcW2 : fieldName = F_category ->
                 value = "" \/ categoryCheckId (vault W2) value = true).
  { rewrite HvW2. exact Hc. }
  assert (Htail : forall current,
             exists (w' : World) (l' : list SecretItem),
               ended (except_Exception item_does_not_exist
                        ((editItemInput categoryCheckId (S fuel) id fieldName current ;;;
                          (fun w2 => Ret None w2)) W2)) w'
               /\ vault w' = Some (mkVault (categories v) (Some l'))
               /\ length l' = length l
               /\ Py.getitem l' id = Some (set_field fieldName value item)
               /\ (forall j, other_position (length l) j id ->
                             Py.getitem l' j = Py.getitem l j)).
  { intros current.
    destruct (editItemInput_reads_value categoryCheckId fuel id fieldName current value
                rest W2 HinW2 Hf HcW2) as (w1 & Hst1 & _ & Hrun).
    assert (Hv1 : vault w1 = Some v).
    { unfold store_of in Hst1. injection Hst1 as H _ _ _. now rewrite H. }
    rewrite Hv1, Hs in Hrun.
    destruct (setitem_spec l id (set_field fieldName value) item Hitem)
      as (l' & Hset & Hlen & Hnew & Hold).
    rewrite Hset in Hrun.
    destruct (save_then_say_ended [Print "The item has been updated."]
                (set_vault (Some (mkVault (categories v) (Some l'))) w1))
      as (w3 & Hend & Hvault & _ & _).
    rewrite <- Hrun in Hend.
    assert (Hbind : ended ((editItemInput categoryCheckId (S fuel) id fieldName current ;;;
                            (fun w2 => Ret (@None string) w2)) W2) w3).
    { unfold bind. destruct Hend as [[a ->]|[e ->]];
        [left; now exists None|right; now exists e]. }
    destruct (except_keeps_vault _ w3 Hbind) as (w' & Hend' & Hv').
    exists w', l'. rewrite Hv'. repeat split; trivial. }
  destruct fieldName; try congruence; simpl edit_command; simpl String.eqb; cbv iota;
    apply Htail.
Qed.



End Menus.

(** ** The further properties at work on the sample vault *)

Lemma addItemInput_stores_typed_witness :
  exists w',
    ended (addItemInput categoryCheckId_model 1
             (sample_world [Typed "1"; Typed "forum"; Typed "carol"; Typed "p4";
                            Typed "first line"; Typed "second line"; Typed ""] [] [])) w'
    /\ vault w'
       = Some (mkVault (categories sample_vault)
                       (Some (stored_secrets sample_vault
                                ++ [mkSecret (if truthy (categories sample_vault)
                                              then "1" else "")
                                             "forum" "carol" "p4"
                                             (Py.join Py.newline
                                                      ["first line"; "second line"])])))
    /\ stdin w' = [].
Proof.
  apply (addItemInput_stores_typed categoryCheckId_model 0
           (sample_world [Typed "1"; Typed "forum"; Typed "carol"; Typed "p4";
                          Typed "first line"; Typed "second line"; Typed ""] [] [])
           sample_vault "1" "forum" "carol" "p4" ["first line"; "second line"] []).
  - reflexivity.
  - reflexivity.
  - intros _. right. reflexivity.
  - repeat constructor; discriminate.
Defined.

Lemma addItemInput_cancelled_witness :
  (exists w',
      addItemInput categoryCheckId_model 1
                   (sample_world [Typed "1"; Typed "forum"; Typed "carol"; CtrlC;
                                  Typed "left over"] [] [])
      = Ret tt w'
      /\ store_of w'
         = store_of (sample_world [Typed "1"; Typed "forum"; Typed "carol"; CtrlC;
                                   Typed "left over"] [] [])
      /\ stdin w' = [Typed "left over"])
  /\ (exists w',
         addItemInput categoryCheckId_model 1 (sample_world [CtrlC] [] []) = Ret tt w'
         /\ store_of w' = store_of (sample_world [CtrlC] [] [])
         /\ stdin w' = []).
Proof.
  split.
  - apply (proj1 (addItemInput_cancelled categoryCheckId_model 0
                    (sample_world [Typed "1"; Typed "forum"; Typed "carol"; CtrlC;
                                   Typed "left over"] [] [])
                    sample_vault eq_refl)
                 "1" ["forum"; "carol"] [Typed "left over"]).
    + reflexivity.
    + intros _. right. reflexivity.
    + simpl. constructor.
  - apply (proj2 (addItemInput_cancelled categoryCheckId_model 0
                    (sample_world [CtrlC] [] []) sample_vault eq_refl) []).
    + reflexivity.
    + reflexivity.
Defined.

Lemma changeKey_rejected_attempts_witness :
  Forall rejected [("short", "short"); ("longenough1", "longenough2")]
  /\ exists w',
      changeKey (length [("short", "short"); ("longenough1", "longenough2")] + 1)
                (sample_world [Typed "short"; Typed "short";
                               Typed "longenough1"; Typed "longenough2";
                               Typed "newmaster1"] [] [])
      = changeKey 1 w'
      /\ store_of w'
         = store_of (sample_world [Typed "short"; Typed "short";
                                   Typed "longenough1"; Typed "longenough2";
                                   Typed "newmaster1"] [] [])
      /\ stdin w' = [Typed "newmaster1"].
Proof.
  assert (H : Forall rejected [("short", "short"); ("longenough1", "longenough2")]).
  { constructor; [left; simpl; lia|].
    constructor; [right; discriminate|constructor]. }
  split; [exact H|].
  apply (changeKey_rejected_attempts
           [("short", "short"); ("longenough1", "longenough2")] 1
           (sample_world [Typed "short"; Typed "short";
                          Typed "longenough1"; Typed "longenough2";
                          Typed "newmaster1"] [] [])
           sample_vault [Typed "newmaster1"]).
  - reflexivity.
  - exact H.
  - reflexivity.
Defined.

Lemma menus_ignore_case_witness :
  itemMenu categoryCheckId_model categoryName_model 2 0 bank
           (sample_world [Typed "D"] [true] [])
  = itemMenu categoryCheckId_model categoryName_model 2 0 bank
             (set_stdin [Typed (Py.lower "D")] (sample_world [Typed "D"] [true] []))
  /\ itemEdit categoryCheckId_model categoryName_model 2 0 bank
              (sample_world [Typed "D"] [true] [])
     = itemEdit categoryCheckId_model categoryName_model 2 0 bank
                (set_stdin [Typed (Py.lower "D")] (sample_world [Typed "D"] [true] [])).
Proof.
  apply (menus_ignore_case categoryCheckId_model categoryName_model 2 0 bank
                           (sample_world [Typed "D"] [true] []) "D" []).
  reflexivity.
Defined.


Lemma get_then_delete_witness :
  awake (sample_world [Typed "D"] [true] [])
  /\ exists w',
      get categoryCheckId_model categoryName_model 1 (- (1))
          (sample_world [Typed "D"] [true] [])
      = Ret None w'
      /\ vault w' = Some (mkVault (categories sample_vault) (Some [bank; mail])).
Proof.
  assert (H : awake (sample_world [Typed "D"] [true] [])) by constructor.
  split; [exact H|].
  apply (get_then_delete categoryCheckId_model categoryName_model 0
           (sample_world [Typed "D"] [true] []) sample_vault [bank; mail; shop]
           [bank; mail] (- (1)) shop "D" [] []); try reflexivity.
  exact H.
Defined.

Lemma get_then_edit_witness :
  awake (sample_world [Typed "e"; Typed "N"; Typed "savings"] [] [])
  /\ exists (w' : World) (l' : list SecretItem),
      ended (get categoryCheckId_model categoryName_model 3 0
                 (sample_world [Typed "e"; Typed "N"; Typed "savings"] [] [])) w'
      /\ vault w' = Some (mkVault (categories sample_vault) (Some l'))
      /\ length l' = length [bank; mail; shop]
      /\ Py.getitem l' 0 = Some (set_field F_name "savings" bank)
      /\ (forall j, other_position (length [bank; mail; shop]) j 0 ->
                    Py.getitem l' j = Py.getitem [bank; mail; shop] j).
Proof.
  assert (H : awake (sample_world [Typed "e"; Typed "N"; Typed "savings"] [] []))
    by constructor.
  split; [exact H|].
  apply (get_then_edit categoryCheckId_model categoryName_model 0
           (sample_world [Typed "e"; Typed "N"; Typed "savings"] [] [])
           sample_vault [bank; mail; shop] 0 bank "e" "N" "savings" F_name []);
    try reflexivity; try discriminate.
  exact H.
Defined.

